(** * migrate.py: a shallow embedding and its verified properties

    The program migrates MongoDB collections with a mongodump | mongorestore
    pipeline, verifies the document counts afterwards and keeps one audit
    record per source collection.  This file embeds

    - [convert_extended_json_to_native] (the filter translator),
    - [get_db_connection], [update_migration_log] and [migrate_collection]
      (the per-collection job), over an explicit world state: the audit
      collection, the open client connections, the console and the
      processes that were spawned.

    Library functions (the ISO parser of [datetime], [json.loads], [str],
    [timedelta.total_seconds]) are parameters gathered in the class
    [PyLib]; the behaviour of the outside world during one job (connection
    attempts, exit codes, counts, acknowledged or refused writes) is a value
    of type [env]. *)

From Stdlib Require Import ZArith List String Ascii Bool Lia PeanoNat.
From Stdlib Require Import DecimalString.
Import ListNotations.
Open Scope string_scope.
Open Scope Z_scope.

Set Implicit Arguments.
Set Warnings "-register-all".

(** ** Python values *)

(** An aware or naive [datetime.datetime]; [tzoffset] is the UTC offset in
    microseconds, [None] for a naive value. *)
Record datetime := mkdt {
  year : Z; month : Z; day : Z;
  hour : Z; minute : Z; second : Z; microsecond : Z;
  tzoffset : option Z
}.

(** A binary64 float, kept as its IEEE-754 bit pattern. *)
Definition float64 := Z.

(** The values [json.loads] produces, plus [datetime].  A [dict] is the list
    of its items in insertion order. *)
Inductive pyval :=
| PNone
| PBool (b : bool)
| PInt (n : Z)
| PFloat (f : float64)
| PStr (s : string)
| PDatetime (d : datetime)
| PList (l : list pyval)
| PDict (d : list (string * pyval)).

(** Exceptions: the class name and [str(e)]. *)
Record exc := mkexc { exc_class : string; exc_str : string }.

Inductive result (A : Type) :=
| Ok (a : A)
| Raise (e : exc).
Arguments Ok {A} a.
Arguments Raise {A} e.

(** ** Dictionaries as item lists *)

Section Dict.
Variable V : Type.

Definition dict := list (string * V).

(** [d[k]] / [d.get(k)] *)
Fixpoint dict_get (k : string) (d : dict) : option V :=
  match d with
  | [] => None
  | (k', v) :: tl => if String.eqb k k' then Some v else dict_get k tl
  end.

(** [k in d] *)
Definition dict_contains (k : string) (d : dict) : bool :=
  match dict_get k d with Some _ => true | None => false end.

(** [d[k] = v]: an existing key keeps its place, a new one goes last. *)
Fixpoint dict_set (k : string) (v : V) (d : dict) : dict :=
  match d with
  | [] => [(k, v)]
  | (k', v') :: tl =>
      if String.eqb k k' then (k', v) :: tl else (k', v') :: dict_set k v tl
  end.

(** [d.update(other)] *)
Definition dict_update (d other : dict) : dict :=
  fold_left (fun acc kv => dict_set (fst kv) (snd kv) acc) other d.

(** [d.get(k, default)] *)
Definition dict_get_default (k : string) (default : V) (d : dict) : V :=
  match dict_get k d with Some v => v | None => default end.

(** The keys of a dictionary are pairwise distinct. *)
Fixpoint distinct (l : list string) : bool :=
  match l with
  | [] => true
  | k :: tl => negb (existsb (String.eqb k) tl) && distinct tl
  end.
End Dict.

(** ** Strings *)

(** [s.endswith(suffix)] *)
Definition endswith (s suffix : string) : bool :=
  let n := String.length s in
  let m := String.length suffix in
  (m <=? n)%nat && String.eqb (substring (n - m) m s) suffix.

(** [s[:-1]] *)
Definition drop_last (s : string) : string :=
  substring 0 (String.length s - 1) s.

(** Lines 122-123: a trailing [Z] becomes [+00:00]. *)
Definition zero_offset (dt_str : string) : string :=
  if endswith dt_str "Z" then drop_last dt_str ++ "+00:00" else dt_str.

(** The name [type(v).__name__] that Python prints in an [AttributeError]. *)
Definition type_name (v : pyval) : string :=
  match v with
  | PNone => "NoneType"
  | PBool _ => "bool"
  | PInt _ => "int"
  | PFloat _ => "float"
  | PStr _ => "str"
  | PDatetime _ => "datetime.datetime"
  | PList _ => "list"
  | PDict _ => "dict"
  end.

Definition no_attribute (v : pyval) (attr : string) : exc :=
  mkexc "AttributeError"
        ("'" ++ type_name v ++ "' object has no attribute '" ++ attr ++ "'").

(** ** Library functions the program calls *)

Class PyLib := {
  (** [datetime.fromisoformat] *)
  fromisoformat : string -> result datetime;
  (** [json.loads] *)
  json_loads : string -> result pyval;
  (** [str(value)], used by the debug trace *)
  py_str : pyval -> string;
  (** [(later - earlier).total_seconds()] *)
  total_seconds : datetime -> datetime -> float64
}.

(** ** The filter translator (migrate.py, lines 113-136) *)

Section Translator.
Context {L : PyLib}.

(** The body of the [$date] branch, lines 120-124, applied to [obj["$date"]]. *)
Definition convert_date (dt : pyval) : result pyval :=
  match dt with
  | PStr dt_str =>
      match fromisoformat (zero_offset dt_str) with
      | Ok d => Ok (PDatetime d)
      | Raise e => Raise e
      end
  | _ => Raise (no_attribute dt "endswith")
  end.

(** The test of line 119. *)
Definition is_date_object (d : dict pyval) : bool :=
  dict_contains "$date" d && (List.length d =? 1)%nat.

Fixpoint convert_extended_json_to_native (obj : pyval) : result pyval :=
  match obj with
  | PDict d =>
      if is_date_object d then
        match dict_get "$date" d with
        | Some dt => convert_date dt
        | None => Raise (mkexc "KeyError" "'$date'")
        end
      else
        (fix items (l : list (string * pyval)) (new_dict : dict pyval)
           : result pyval :=
           match l with
           | [] => Ok (PDict new_dict)
           | (key, value) :: tl =>
               match convert_extended_json_to_native value with
               | Ok v => items tl (dict_set key v new_dict)
               | Raise e => Raise e
               end
           end) d []
  | PList l =>
      match
        (fix each (l : list pyval) : result (list pyval) :=
           match l with
           | [] => Ok []
           | item :: tl =>
               match convert_extended_json_to_native item with
               | Ok v =>
                   match each tl with
                   | Ok vs => Ok (v :: vs)
                   | Raise e => Raise e
                   end
               | Raise e => Raise e
               end
           end) l
      with
      | Ok vs => Ok (PList vs)
      | Raise e => Raise e
      end
  | _ => Ok obj
  end.
End Translator.

(** ** Configuration (migrate.py, lines 13-27) *)

Definition DEBUG_MODE : bool := true.
Definition SOURCE_MONGO_URI : string :=
  "mongodb://localhost:30000,localhost:30001,localhost:30002/?replicaSet=rs0".
Definition TARGET_MONGO_URI : string :=
  "mongodb://localhost:20000,localhost:20001,localhost:20002/?replicaSet=target".
Definition SOURCE_DB : string := "test".
Definition TARGET_DB : string := "test".
Definition LOG_COLLECTION_NAME : string := "migration_logs".

(** ** [shlex.join] *)

(** The characters [shlex.quote] leaves alone: [[a-zA-Z0-9_@%+=:,./-]]. *)
Definition shell_safe (c : ascii) : bool :=
  let n := nat_of_ascii c in
  ((97 <=? n) && (n <=? 122) || (65 <=? n) && (n <=? 90) ||
   (48 <=? n) && (n <=? 57) ||
   existsb (Nat.eqb n) [95; 64; 37; 43; 61; 58; 44; 46; 47; 45])%nat.

Fixpoint all_chars (p : ascii -> bool) (s : string) : bool :=
  match s with
  | EmptyString => true
  | String c tl => p c && all_chars p tl
  end.

Definition double_quote : ascii := ascii_of_nat 34.
Definition single_quote : ascii := ascii_of_nat 39.

(** [s.replace("'", "'" + '"' + "'" + '"' + "'")] *)
Fixpoint escape_single_quotes (s : string) : string :=
  match s with
  | EmptyString => EmptyString
  | String c tl =>
      if Ascii.eqb c single_quote then
        String single_quote
          (String double_quote
             (String single_quote
                (String double_quote
                   (String single_quote (escape_single_quotes tl)))))
      else String c (escape_single_quotes tl)
  end.

Definition shlex_quote (s : string) : string :=
  match s with
  | EmptyString => "''"
  | _ => if all_chars shell_safe s then s
         else "'" ++ escape_single_quotes s ++ "'"
  end.

Definition shlex_join (cmd : list string) : string :=
  String.concat " " (map shlex_quote cmd).

(** Decimal text of an [int], as an f-string prints it. *)
Definition str_of_int (n : Z) : string :=
  DecimalString.NilZero.string_of_int (Z.to_int n).

(** ** The world a job acts on *)

(** A [MongoClient] that answered its ping. *)
Record client := mkclient { client_id : nat; client_uri : string }.

(** [client[db][name]] *)
Record collection_handle := mkcoll {
  coll_client : client; coll_db : string; coll_name : string
}.

Inductive side := Source | Target.

Record count_call := mkcount {
  count_side : side; count_db : string; count_collection : string;
  count_filter : pyval
}.

Record world := mkworld {
  (** documents of the audit collection TARGET_DB.migration_logs *)
  audit : list (dict pyval);
  (** clients opened and not yet closed *)
  open_clients : list client;
  (** identifier of the next client *)
  fresh : nat;
  (** lines printed, oldest first *)
  console : list string;
  (** argument vectors of the processes started, oldest first *)
  spawned : list (list string);
  (** [count_documents] calls, oldest first *)
  counted : list count_call
}.

(** What a connection attempt meets: [MongoClient(uri)] followed by the
    ping. *)
Inductive conn_outcome :=
| Connected
| ConnectionFailure (msg : string)   (* pymongo.errors.ConnectionFailure *)
| OtherError (e : exc).              (* any other exception *)

(** What the outside world answers during one run of a job.  The stderr
    texts are the captured bytes as [decode('utf-8', 'ignore')] returns
    them; a write outcome [None] is an acknowledged write. *)
Record env := mkenv {
  log_connect : conn_outcome;
  running_write : option exc;
  dump_spawn : option exc;
  restore_spawn : option exc;
  restore_returncode : Z;
  restore_stderr : string;
  dump_returncode : Z;
  dump_stderr : string;
  source_connect : conn_outcome;
  target_connect : conn_outcome;
  source_count : string -> string -> pyval -> result Z;
  target_count : string -> string -> pyval -> result Z;
  final_write : option exc;
  utcnow_start : datetime;
  utcnow_end : datetime;
  utcnow_end' : datetime
}.

(** ** A state and exception monad *)

Definition M (A : Type) : Type := world -> result A * world.

Definition ret {A} (a : A) : M A := fun w => (Ok a, w).

Definition raise {A} (e : exc) : M A := fun w => (Raise e, w).

Definition bind {A B} (m : M A) (k : A -> M B) : M B :=
  fun w =>
    match m w with
    | (Ok a, w') => k a w'
    | (Raise e, w') => (Raise e, w')
    end.

Declare Scope monad_scope.
Delimit Scope monad_scope with monad.
Notation "x <- m ;; k" := (bind m (fun x => k))
  (at level 100, m at next level, right associativity) : monad_scope.
Notation "m ;; k" := (bind m (fun _ => k))
  (at level 100, right associativity) : monad_scope.
Open Scope monad_scope.

(** [try: m  except Exception as e: handler e] *)
Definition try_except {A} (m : M A) (handler : exc -> M A) : M A :=
  fun w =>
    match m w with
    | (Ok a, w') => (Ok a, w')
    | (Raise e, w') => handler e w'
    end.

(** Runs [m] and hands its outcome over, so that the caller can choose the
    handler by the point the exception came from. *)
Definition attempt {A} (m : M A) : M (result A) :=
  fun w => let (r, w') := m w in (Ok r, w').

(** [try: m  finally: f] *)
Definition try_finally {A} (m : M A) (f : M unit) : M A :=
  fun w =>
    let (r, w') := m w in
    match f w' with
    | (Ok _, w'') => (r, w'')
    | (Raise e, w'') => (Raise e, w'')
    end.

Definition lift {A} (r : result A) : M A := fun w => (r, w).

Definition when (b : bool) (m : M unit) : M unit := if b then m else ret tt.

(** *** Primitive effects *)

Definition print (line : string) : M unit :=
  fun w => (Ok tt, mkworld (audit w) (open_clients w) (fresh w)
                           (console w ++ [line]) (spawned w) (counted w)).

(** [d[k]] on a dictionary, with its [KeyError]. *)
Definition subscript {V} (d : dict V) (k : string) : M V :=
  match dict_get k d with
  | Some v => ret v
  | None => raise (mkexc "KeyError" ("'" ++ k ++ "'"))
  end.

Definition client_eqb (a b : client) : bool :=
  Nat.eqb (client_id a) (client_id b).

(** [client.close()] *)
Definition close (c : client) : M unit :=
  fun w =>
    (Ok tt, mkworld (audit w)
                    (filter (fun c' => negb (client_eqb c c')) (open_clients w))
                    (fresh w) (console w) (spawned w) (counted w)).

(** [subprocess.Popen(cmd, ...)] *)
Definition popen (o : option exc) (cmd : list string) : M unit :=
  match o with
  | Some e => raise e
  | None =>
      fun w => (Ok tt, mkworld (audit w) (open_clients w) (fresh w) (console w)
                               (spawned w ++ [cmd]) (counted w))
  end.

(** ** The audit collection: [update_one(filter, {"$set": ...}, upsert=True)] *)

Definition datetime_eqb (a b : datetime) : bool :=
  (year a =? year b) && (month a =? month b) && (day a =? day b) &&
  (hour a =? hour b) && (minute a =? minute b) && (second a =? second b) &&
  (microsecond a =? microsecond b) &&
  match tzoffset a, tzoffset b with
  | Some x, Some y => x =? y
  | None, None => true
  | _, _ => false
  end.

Fixpoint pyval_eqb (a b : pyval) : bool :=
  match a, b with
  | PNone, PNone => true
  | PBool x, PBool y => Bool.eqb x y
  | PInt x, PInt y => x =? y
  | PFloat x, PFloat y => x =? y
  | PStr x, PStr y => String.eqb x y
  | PDatetime x, PDatetime y => datetime_eqb x y
  | PList x, PList y =>
      (fix go (x y : list pyval) : bool :=
         match x, y with
         | [], [] => true
         | a :: x', b :: y' => pyval_eqb a b && go x' y'
         | _, _ => false
         end) x y
  | PDict x, PDict y =>
      (fix go (x y : list (string * pyval)) : bool :=
         match x, y with
         | [], [] => true
         | (k, a) :: x', (k', b) :: y' =>
             String.eqb k k' && pyval_eqb a b && go x' y'
         | _, _ => false
         end) x y
  | _, _ => false
  end.

(** A document satisfies an equality filter when it carries every field of
    the filter with an equal value. *)
Definition doc_matches (flt doc : dict pyval) : bool :=
  forallb (fun kv => match dict_get (fst kv) doc with
                     | Some v => pyval_eqb (snd kv) v
                     | None => false
                     end) flt.

(** [$set] on the first document the filter selects, if there is one. *)
Fixpoint update_first (flt fields : dict pyval) (docs : list (dict pyval))
  : option (list (dict pyval)) :=
  match docs with
  | [] => None
  | doc :: tl =>
      if doc_matches flt doc then Some (dict_update doc fields :: tl)
      else match update_first flt fields tl with
           | Some tl' => Some (doc :: tl')
           | None => None
           end
  end.

(** With [upsert=True] a filter that selects nothing inserts the filter's
    fields with the [$set] applied (the server-generated [_id] is left
    out). *)
Definition update_one_upsert (flt fields : dict pyval)
           (docs : list (dict pyval)) : list (dict pyval) :=
  match update_first flt fields docs with
  | Some docs' => docs'
  | None => docs ++ [dict_update flt fields]
  end.

(** [collection.update_one(flt, {"$set": fields}, upsert=True)]; the world
    holds the one collection the program ever writes to. *)
Definition update_one (o : option exc) (log_collection : collection_handle)
           (flt fields : dict pyval) : M unit :=
  match o with
  | Some e => raise e
  | None =>
      fun w => (Ok tt, mkworld (update_one_upsert flt fields (audit w))
                               (open_clients w) (fresh w) (console w)
                               (spawned w) (counted w))
  end.

(** A successful [MongoClient(uri, serverSelectionTimeoutMS=5000)] with
    its ping. *)
Definition new_client (uri : string) : M client :=
  fun w =>
    let c := mkclient (fresh w) uri in
    (Ok c, mkworld (audit w) (open_clients w ++ [c]) (S (fresh w))
                   (console w) (spawned w) (counted w)).

(** [handle[db][collection].count_documents(flt)] *)
Definition count_documents (s : side)
           (answer : string -> string -> pyval -> result Z)
           (handle : option client) (db coll : string) (flt : pyval) : M Z :=
  match handle with
  | None => raise (mkexc "TypeError" "'NoneType' object is not subscriptable")
  | Some _ =>
      fun w => (answer db coll flt,
                mkworld (audit w) (open_clients w) (fresh w) (console w)
                        (spawned w) (counted w ++ [mkcount s db coll flt]))
  end.

(** ** The job (migrate.py, lines 138-266) *)

(** The dictionary a job returns; a key the job leaves out is [None]. *)
Record job_result := mkresult {
  status : string;
  collection : string;
  verification : option string;
  error : option string
}.

(** Truth value of [config.get('query')]. *)
Definition truthy (q : option string) : bool :=
  match q with
  | Some (String _ _) => true
  | _ => false
  end.

Section Job.
Context {L : PyLib}.

(** A value inside an f-string. *)
Definition format_value (v : pyval) : string :=
  match v with
  | PStr s => s
  | _ => py_str v
  end.

(** Lines 138-146. *)
Definition get_db_connection (o : conn_outcome) (uri : string)
  : M (option client) :=
  match o with
  | Connected => c <- new_client uri;; ret (Some c)
  | ConnectionFailure msg =>
      print ("Error: Could not connect to MongoDB at " ++ uri ++ ". " ++ msg);;
      ret None
  | OtherError e => raise e
  end.

(** Lines 148-157; [o] is what the store answers to the write. *)
Definition update_migration_log (o : option exc)
           (log_collection : collection_handle) (log_data : dict pyval)
  : M unit :=
  try_except
    (source_db <- subscript log_data "source_db";;
     source_collection <- subscript log_data "source_collection";;
     update_one o log_collection
                [("source_db", source_db);
                 ("source_collection", source_collection)]
                log_data)
    (fun e =>
       source_db <- subscript log_data "source_db";;
       source_collection <- subscript log_data "source_collection";;
       print ("Error updating migration log for " ++ format_value source_db
              ++ "." ++ format_value source_collection ++ ": " ++ exc_str e)).

(** The names of lines 162-166. *)
Definition source_db_name (config : dict string) : string :=
  dict_get_default "source_db" SOURCE_DB config.

Definition target_db_name (config : dict string) : string :=
  dict_get_default "target_db" TARGET_DB config.

Definition target_collection_name (config : dict string)
           (source_collection_name : string) : string :=
  dict_get_default "target_name" source_collection_name config.

Definition optional_str (q : option string) : pyval :=
  match q with Some s => PStr s | None => PNone end.

(** [log_data] of lines 169-173. *)
Definition initial_log_data (config : dict string)
           (source_collection_name : string) (start_time : datetime)
  : dict pyval :=
  [("source_db", PStr (source_db_name config));
   ("source_collection", PStr source_collection_name);
   ("target_db", PStr (target_db_name config));
   ("target_collection",
    PStr (target_collection_name config source_collection_name));
   ("query", optional_str (dict_get "query" config));
   ("start_time", PDatetime start_time);
   ("status", PStr "running")].

Definition collection_id (config : dict string) (name : string) : string :=
  source_db_name config ++ "." ++ name.

Definition dump_cmd (config : dict string) (name : string) : list string :=
  ["mongodump"; "--uri"; SOURCE_MONGO_URI; "--db"; source_db_name config;
   "--collection"; name; "--archive"]
  ++ match dict_get "query" config with
     | Some q => if truthy (Some q) then ["-q"; q] else []
     | None => []
     end.

Definition restore_cmd (config : dict string) (name : string) : list string :=
  ["mongorestore"; "--uri"; TARGET_MONGO_URI; "--archive"; "--drop";
   "--nsFrom=" ++ source_db_name config ++ "." ++ name;
   "--nsTo=" ++ target_db_name config ++ "." ++
     target_collection_name config name].

(** Lines 176-181, the body of the first [try]. *)
Definition initial_logging (e : env) (log_data : dict pyval)
  : M (client * collection_handle) :=
  target_client_for_log <- get_db_connection (log_connect e) TARGET_MONGO_URI;;
  match target_client_for_log with
  | None =>
      raise (mkexc "ConnectionError"
                   "Failed to connect to target DB for logging.")
  | Some c =>
      let log_collection := mkcoll c TARGET_DB LOG_COLLECTION_NAME in
      update_migration_log (running_write e) log_collection log_data;;
      ret (c, log_collection)
  end.

(** Lines 189-216: the two processes and their exit codes. *)
Definition transfer (e : env) (config : dict string) (name : string) : M unit :=
  when DEBUG_MODE
    (print ("  [DEBUG] mongodump command: "
            ++ shlex_join (dump_cmd config name));;
     print ("  [DEBUG] mongorestore command: "
            ++ shlex_join (restore_cmd config name)));;
  popen (dump_spawn e) (dump_cmd config name);;
  popen (restore_spawn e) (restore_cmd config name);;
  (if negb (restore_returncode e =? 0) then
     raise (mkexc "Exception" ("Restore failed. Stderr: " ++ restore_stderr e))
   else ret tt);;
  (if negb (dump_returncode e =? 0) then
     raise (mkexc "Exception" ("Dump failed. Stderr: " ++ dump_stderr e))
   else ret tt).

(** Lines 221-224. *)
Definition query_filter_for_count (config : dict string) : result pyval :=
  match dict_get "query" config with
  | Some q =>
      if truthy (Some q) then
        match json_loads q with
        | Ok extended_json_dict =>
            convert_extended_json_to_native extended_json_dict
        | Raise ex => Raise ex
        end
      else Ok (PDict [])
  | None => Ok (PDict [])
  end.

(** Lines 218-238: connections, counts and their comparison. *)
Definition verify (e : env) (config : dict string) (name : string)
  : M (option client * option client * Z * Z * string) :=
  source_client <- get_db_connection (source_connect e) SOURCE_MONGO_URI;;
  target_client <- get_db_connection (target_connect e) TARGET_MONGO_URI;;
  flt <- lift (query_filter_for_count config);;
  when DEBUG_MODE
    (print ("  [DEBUG] Source count Pymongo filter: " ++ py_str flt);;
     print "  [DEBUG] Target count Pymongo filter: {}");;
  source_count <- count_documents Source (source_count e) source_client
                    (source_db_name config) name flt;;
  target_count <- count_documents Target (target_count e) target_client
                    (target_db_name config)
                    (target_collection_name config name) (PDict []);;
  if negb (source_count =? target_count) then
    print ("WARNING: Count mismatch for " ++ collection_id config name
           ++ ": Source(" ++ str_of_int source_count ++ ") != Target("
           ++ str_of_int target_count ++ ")");;
    ret (source_client, target_client, source_count, target_count,
         "count_mismatch")
  else
    print ("Verification successful for " ++ collection_id config name
           ++ " (Count: " ++ str_of_int source_count ++ ")");;
    ret (source_client, target_client, source_count, target_count, "success").

(** Lines 189-238, the part of the second [try] that works on the initial
    [log_data]. *)
Definition transfer_and_verify (e : env) (config : dict string)
           (name : string)
  : M (option client * option client * Z * Z * string) :=
  transfer e config name;; verify e config name.

Definition close_if_open (c : option client) : M unit :=
  match c with
  | Some c => close c
  | None => ret tt
  end.

(** Lines 240-251. *)
Definition record_completed (e : env) (config : dict string) (name : string)
           (log_collection : collection_handle) (log_data : dict pyval)
           (source_client target_client : option client)
           (verification_status : string) : M job_result :=
  update_migration_log (final_write e) log_collection log_data;;
  close_if_open source_client;;
  close_if_open target_client;;
  ret (mkresult "completed" (collection_id config name)
                (Some verification_status) None).

(** Lines 253-263, the handler of the second [try]; [log_data] is the
    dictionary as it stands when the exception arrives. *)
Definition record_failed (e : env) (config : dict string) (name : string)
           (log_collection : collection_handle) (log_data : dict pyval)
           (ex : exc) : M job_result :=
  let error_msg := exc_str ex in
  print ("Migration FAILED for " ++ collection_id config name
         ++ ". Reason: " ++ error_msg);;
  let log_data :=
    dict_update log_data
      [("status", PStr "failed");
       ("end_time", PDatetime (utcnow_end e));
       ("duration_seconds",
        PFloat (total_seconds (utcnow_end' e) (utcnow_start e)));
       ("error_message", PStr error_msg)] in
  update_migration_log (final_write e) log_collection log_data;;
  ret (mkresult "failed" (collection_id config name) None (Some error_msg)).

(** Lines 160-266. *)
Definition migrate_collection (e : env) (config : dict string) : M job_result :=
  name <- subscript config "name";;
  let log_data := initial_log_data config name (utcnow_start e) in
  logging <- attempt (initial_logging e log_data);;
  match logging with
  | Raise ex =>
      print ("Initial logging failed for " ++ collection_id config name
             ++ ": " ++ exc_str ex);;
      ret (mkresult "failed" (collection_id config name) None
                    (Some (exc_str ex)))
  | Ok (target_client_for_log, log_collection) =>
      print ("Starting migration for: " ++ collection_id config name ++ " -> "
             ++ target_db_name config ++ "."
             ++ target_collection_name config name);;
      try_finally
        (counts <- attempt (transfer_and_verify e config name);;
         match counts with
         | Ok (source_client, target_client, source_count, target_count,
               verification_status) =>
             let log_data :=
               dict_update log_data
                 [("status", PStr "completed");
                  ("end_time", PDatetime (utcnow_end e));
                  ("duration_seconds",
                   PFloat (total_seconds (utcnow_end' e) (utcnow_start e)));
                  ("source_count", PInt source_count);
                  ("target_count", PInt target_count);
                  ("verification", PStr verification_status)] in
             done <- attempt (record_completed e config name log_collection
                                log_data source_client target_client
                                verification_status);;
             match done with
             | Ok r => ret r
             | Raise ex =>
                 record_failed e config name log_collection log_data ex
             end
         | Raise ex =>
             record_failed e config name log_collection log_data ex
         end)
        (close target_client_for_log)
  end.

End Job.

(** ** Predicates on values *)

(** Every dictionary inside [v] has pairwise distinct keys, as every Python
    dictionary has. *)
Fixpoint well_formed (v : pyval) : bool :=
  match v with
  | PList l => forallb well_formed l
  | PDict d =>
      distinct (map fst d) && forallb (fun kv => well_formed (snd kv)) d
  | _ => true
  end.

(** Some dictionary inside [v] has ["$date"] as its only key. *)
Fixpoint has_date_object (v : pyval) : bool :=
  match v with
  | PList l => existsb has_date_object l
  | PDict d =>
      is_date_object d || existsb (fun kv => has_date_object (snd kv)) d
  | _ => false
  end.

(** The two loops of the translator, as functions of their own. *)
Fixpoint convert_items (f : pyval -> result pyval)
         (l : list (string * pyval)) (new_dict : dict pyval) : result pyval :=
  match l with
  | [] => Ok (PDict new_dict)
  | (key, value) :: tl =>
      match f value with
      | Ok v => convert_items f tl (dict_set key v new_dict)
      | Raise e => Raise e
      end
  end.

Fixpoint convert_each (f : pyval -> result pyval) (l : list pyval)
  : result (list pyval) :=
  match l with
  | [] => Ok []
  | item :: tl =>
      match f item with
      | Ok v =>
          match convert_each f tl with
          | Ok vs => Ok (v :: vs)
          | Raise e => Raise e
          end
      | Raise e => Raise e
      end
  end.

(** ** A model of the library functions

    [datetime.fromisoformat] follows the grammar documented for Python 3.7
    to 3.10, [YYYY-MM-DD[*HH[:MM[:SS[.fff[fff]]]][+HH:MM[:SS[.ffffff]]]]],
    which knows no [Z] suffix: that is why the program rewrites a trailing
    [Z] first.  The constructor checks of [datetime] and [timezone] follow
    the parse.  The model serves the worked examples; the theorems hold for
    every [PyLib]. *)

Module Py310.

Definition digit (c : ascii) : option Z :=
  let n := nat_of_ascii c in
  if ((48 <=? n) && (n <=? 57))%nat then Some (Z.of_nat (n - 48)) else None.

Fixpoint parse_digits (s : string) (acc : Z) : option Z :=
  match s with
  | EmptyString => Some acc
  | String c tl =>
      match digit c with
      | Some d => parse_digits tl (acc * 10 + d)
      | None => None
      end
  end.

(** [int(s)] on a run of decimal digits. *)
Definition parse_int (s : string) : option Z :=
  match s with
  | EmptyString => None
  | _ => parse_digits s 0
  end.

(** [int(s[pos:pos+2])], both characters present. *)
Definition two_digits (s : string) (pos : nat) : option Z :=
  if (pos + 2 <=? String.length s)%nat then parse_int (substring pos 2 s)
  else None.

Definition is_char (c : ascii) (x : string) : bool :=
  match x with
  | String c' EmptyString => Ascii.eqb c c'
  | _ => false
  end.

(** [_parse_hh_mm_ss_ff]: hour, minute, second, microsecond. *)
Definition parse_hh_mm_ss_ff (tstr : string) : option (Z * Z * Z * Z) :=
  match two_digits tstr 0 with
  | None => None
  | Some hh =>
  match String.get 2 tstr with
  | None => Some (hh, 0, 0, 0)
  | Some c =>
  if negb (is_char c ":") then None else
  match two_digits tstr 3 with
  | None => None
  | Some mm =>
  match String.get 5 tstr with
  | None => Some (hh, mm, 0, 0)
  | Some c =>
  if negb (is_char c ":") then None else
  match two_digits tstr 6 with
  | None => None
  | Some ss =>
  match String.get 8 tstr with
  | None => Some (hh, mm, ss, 0)
  | Some c =>
  if negb (is_char c ".") then None else
  let len_remainder := (String.length tstr - 9)%nat in
  if (len_remainder =? 3)%nat then
    match parse_int (substring 9 3 tstr) with
    | Some f => Some (hh, mm, ss, f * 1000)
    | None => None
    end
  else if (len_remainder =? 6)%nat then
    match parse_int (substring 9 6 tstr) with
    | Some f => Some (hh, mm, ss, f)
    | None => None
    end
  else None
  end end end end end end.

(** [s.find(c)] *)
Fixpoint find_char (c : ascii) (s : string) : option nat :=
  match s with
  | EmptyString => None
  | String c' tl =>
      if Ascii.eqb c c' then Some O
      else match find_char c tl with
           | Some i => Some (S i)
           | None => None
           end
  end.

Definition day_us : Z := 86400 * 1000000.

(** [_parse_isoformat_time]: the clock fields and the offset from UTC in
    microseconds. *)
Definition parse_isoformat_time (tstr : string)
  : option (Z * Z * Z * Z * option Z) :=
  if (String.length tstr <? 2)%nat then None else
  let tz_pos :=
    match find_char "-" tstr with
    | Some i => Some i
    | None => find_char "+" tstr
    end in
  match tz_pos with
  | None =>
      match parse_hh_mm_ss_ff tstr with
      | Some t => Some (t, None)
      | None => None
      end
  | Some i =>
      match parse_hh_mm_ss_ff (substring 0 i tstr) with
      | None => None
      | Some t =>
          let tzstr := substring (S i) (String.length tstr - S i) tstr in
          let n := String.length tzstr in
          if negb ((n =? 5) || (n =? 8) || (n =? 15))%nat then None else
          match parse_hh_mm_ss_ff tzstr with
          | None => None
          | Some (h, m, s, us) =>
              let magnitude := ((h * 3600 + m * 60 + s) * 1000000 + us) in
              let sign :=
                match String.get i tstr with
                | Some c => if is_char c "-" then -1 else 1
                | None => 1
                end in
              if magnitude <? day_us then Some (t, Some (sign * magnitude))
              else None
          end
      end
  end.

Definition is_leap (y : Z) : bool :=
  (y mod 4 =? 0) && (negb (y mod 100 =? 0) || (y mod 400 =? 0)).

Definition days_in_month (y m : Z) : Z :=
  if m =? 2 then (if is_leap y then 29 else 28)
  else if (m =? 4) || (m =? 6) || (m =? 9) || (m =? 11) then 30
  else 31.

(** The range checks of the [datetime] constructor. *)
Definition check_fields (y mo d h mi s us : Z) : option string :=
  if negb ((1 <=? y) && (y <=? 9999)) then Some "year is out of range"
  else if negb ((1 <=? mo) && (mo <=? 12)) then Some "month must be in 1..12"
  else if negb ((1 <=? d) && (d <=? days_in_month y mo))
       then Some "day is out of range for month"
  else if negb ((0 <=? h) && (h <=? 23)) then Some "hour must be in 0..23"
  else if negb ((0 <=? mi) && (mi <=? 59)) then Some "minute must be in 0..59"
  else if negb ((0 <=? s) && (s <=? 59)) then Some "second must be in 0..59"
  else if negb ((0 <=? us) && (us <=? 999999))
       then Some "microsecond must be in 0..999999"
  else None.

(** The message quotes the text as [repr] does for text without quotes
    or escapes. *)
Definition invalid (date_string : string) : result datetime :=
  Raise (mkexc "ValueError"
               ("Invalid isoformat string: '" ++ date_string ++ "'")).

Definition fromisoformat (date_string : string) : result datetime :=
  let n := String.length date_string in
  if (n <? 10)%nat then invalid date_string else
  match parse_int (substring 0 4 date_string),
        String.get 4 date_string,
        parse_int (substring 5 2 date_string),
        String.get 7 date_string,
        parse_int (substring 8 2 date_string) with
  | Some y, Some c1, Some mo, Some c2, Some d =>
      if negb (is_char c1 "-" && is_char c2 "-") then invalid date_string else
      let tstr := substring 11 (n - 11) date_string in
      let time_components :=
        match tstr with
        | EmptyString => Some (0, 0, 0, 0, None)
        | _ => parse_isoformat_time tstr
        end in
      match time_components with
      | Some (h, mi, s, us, tz) =>
          match check_fields y mo d h mi s us with
          | Some msg => Raise (mkexc "ValueError" msg)
          | None => Ok (mkdt y mo d h mi s us tz)
          end
      | None => invalid date_string
      end
  | _, _, _, _, _ => invalid date_string
  end.

(** *** [timedelta.total_seconds] *)

Definition days_before_year (y : Z) : Z :=
  let y := y - 1 in y * 365 + y / 4 - y / 100 + y / 400.

Fixpoint days_before_month (y : Z) (m : nat) : Z :=
  match m with
  | O => 0
  | S m' => days_before_month y m' + days_in_month y (Z.of_nat m)
  end.

(** [date.toordinal()] *)
Definition toordinal (d : datetime) : Z :=
  days_before_year (year d)
  + days_before_month (year d) (Z.to_nat (month d) - 1)
  + day d.

(** Microseconds since 0001-01-01T00:00:00 on the value's own clock. *)
Definition microseconds (d : datetime) : Z :=
  ((toordinal d - 1) * 86400 + hour d * 3600 + minute d * 60 + second d)
  * 1000000 + microsecond d.

(** The binary64 nearest to [p / q] (ties to even), as Python's [/] on
    integers gives it, for [q > 0] and a quotient that is zero or in the
    normal range. *)
Definition true_divide (p q : Z) : float64 :=
  if p =? 0 then 0 else
  let a := Z.abs p in
  let e0 := Z.log2 a - Z.log2 q in
  (* a / q lies in [2^(e0-1), 2^(e0+1)) *)
  let below :=
    if 0 <=? e0 then a <? q * 2 ^ e0 else a * 2 ^ (- e0) <? q in
  let e := if below then e0 - 1 else e0 in
  (* scaled = a / q * 2^(52 - e), in [2^52, 2^53) *)
  let num := if 0 <=? 52 - e then a * 2 ^ (52 - e) else a in
  let den := if 0 <=? 52 - e then q else q * 2 ^ (e - 52) in
  let m := num / den in
  let r := num mod den in
  let m := if (den <? 2 * r) || ((2 * r =? den) && Z.odd m) then m + 1 else m in
  let (m, e) := if m =? 2 ^ 53 then (2 ^ 52, e + 1) else (m, e) in
  Z.lor (if p <? 0 then 2 ^ 63 else 0)
        (Z.lor (Z.shiftl (e + 1023) 52) (m - 2 ^ 52)).

Definition total_seconds (later earlier : datetime) : float64 :=
  true_divide (microseconds later - microseconds earlier) 1000000.

(** *** [str] of a filter, for the debug trace

    Text is quoted without escapes and a float shows its bit pattern;
    Python prints escapes and the shortest decimal there. *)

Definition show_datetime (d : datetime) : string :=
  "datetime.datetime(" ++ str_of_int (year d) ++ ", " ++ str_of_int (month d)
  ++ ", " ++ str_of_int (day d) ++ ", " ++ str_of_int (hour d) ++ ", "
  ++ str_of_int (minute d)
  ++ (if (second d =? 0) && (microsecond d =? 0) then EmptyString
      else ", " ++ str_of_int (second d)
           ++ (if microsecond d =? 0 then EmptyString
               else ", " ++ str_of_int (microsecond d)))
  ++ match tzoffset d with
     | None => EmptyString
     | Some 0 => ", tzinfo=datetime.timezone.utc"
     | Some us =>
         ", tzinfo=datetime.timezone(datetime.timedelta(microseconds="
         ++ str_of_int us ++ "))"
     end
  ++ ")".

Fixpoint py_str (v : pyval) : string :=
  match v with
  | PNone => "None"
  | PBool true => "True"
  | PBool false => "False"
  | PInt n => str_of_int n
  | PFloat f => "float:" ++ str_of_int f
  | PStr s => "'" ++ s ++ "'"
  | PDatetime d => show_datetime d
  | PList l => "[" ++ String.concat ", " (map py_str l) ++ "]"
  | PDict d =>
      "{" ++ String.concat ", "
               (map (fun kv => "'" ++ fst kv ++ "': " ++ py_str (snd kv)) d)
      ++ "}"
  end.

(** *** [json.loads] on the filters the program ships with

    The three [query] strings of COLLECTIONS_TO_MIGRATE (lines 40, 45 and
    50) with their parses; any other text is outside this table and is
    answered as malformed. *)

(** Writes a JSON text with ['] where JSON has the double quote. *)
Fixpoint json_text (s : string) : string :=
  match s with
  | EmptyString => EmptyString
  | String c tl =>
      String (if Ascii.eqb c single_quote then double_quote else c)
             (json_text tl)
  end.

Definition query_dk1 : string :=
  json_text "{'fld1': {'$gt': {'$date': '2018-02-15T15:55:00.176Z'}}}".
Definition query_dk2 : string :=
  json_text "{'fld4': 'magna aliquyam erat, sed diam'}".
Definition query_dk3 : string := json_text "{'fld6': 437549}".

Definition json_loads (s : string) : result pyval :=
  if String.eqb s query_dk1 then
    Ok (PDict [("fld1", PDict [("$gt",
          PDict [("$date", PStr "2018-02-15T15:55:00.176Z")])])])
  else if String.eqb s query_dk2 then
    Ok (PDict [("fld4", PStr "magna aliquyam erat, sed diam")])
  else if String.eqb s query_dk3 then
    Ok (PDict [("fld6", PInt 437549)])
  else Raise (mkexc "JSONDecodeError"
                    "Expecting value: line 1 column 1 (char 0)").

End Py310.

Definition py310 : PyLib :=
  Build_PyLib Py310.fromisoformat Py310.json_loads Py310.py_str
              Py310.total_seconds.

(** The job list of lines 36-108. *)
Definition COLLECTIONS_TO_MIGRATE : list (dict string) :=
  [ [("name", "dk1"); ("target_db", "target_test"); ("query", Py310.query_dk1)];
    [("name", "dk2"); ("target_db", "target_test"); ("query", Py310.query_dk2)];
    [("name", "dk3"); ("target_db", "target_test"); ("query", Py310.query_dk3)];
    [("name", "dk4"); ("target_db", "target_test")];
    [("source_db", "test1"); ("name", "dk1"); ("target_db", "target_test");
     ("target_name", "test1_dk1")];
    [("source_db", "test1"); ("name", "dk2"); ("target_db", "target_test");
     ("target_name", "test1_dk2")];
    [("source_db", "test1"); ("name", "dk3"); ("target_db", "target_test");
     ("target_name", "test1_dk3")];
    [("source_db", "test1"); ("name", "dk4"); ("target_db", "target_test");
     ("target_name", "test1_dk4")];
    [("source_db", "test2"); ("name", "dk1"); ("target_db", "target_test");
     ("target_name", "test2_dk1")];
    [("source_db", "test2"); ("name", "dk2"); ("target_db", "target_test");
     ("target_name", "test2_dk2")];
    [("source_db", "test2"); ("name", "dk3"); ("target_db", "target_test");
     ("target_name", "test2_dk3")];
    [("source_db", "test2"); ("name", "dk4"); ("target_db", "target_test");
     ("target_name", "test2_dk4")];
    [("name", "non_existent_collection")] ].

(** ** The collection loop and the summary (migrate.py, lines 269-312)

    [main] hands every job to a pool of MAX_CONCURRENT_JOBS threads and
    walks the futures in completion order.  The scheduling of the pool is
    outside this model: the loop of lines 283-294 is embedded as a function
    of the sequence of (config, outcome) pairs in the order [as_completed]
    yields them, an outcome [Raise e] being a future whose [result()]
    raises.  The lines the jobs print from their own threads are not part
    of the console trace of [main]. *)

Definition MAX_CONCURRENT_JOBS : Z := 4.

(** The formatting functions of the report. *)
Class PyFormat := {
  (** [t.strftime('%Y-%m-%d %H:%M:%S')] *)
  strftime : datetime -> string;
  (** [f"{x:.2f}"] *)
  format_2f : float64 -> string
}.

Definition newline : string := String (ascii_of_nat 10) EmptyString.

(** [s * n] *)
Fixpoint str_mul (s : string) (n : nat) : string :=
  match n with
  | O => EmptyString
  | S n' => s ++ str_mul s n'
  end.

Section Main.
Context {L : PyLib} {F : PyFormat}.

(** Lines 284-294, the body of the loop for one completed future. *)
Definition collect_one (config : dict string) (outcome : result job_result)
           (successful_migrations failed_migrations : list job_result)
  : M (list job_result * list job_result) :=
  name <- subscript config "name";;
  let collection_id := dict_get_default "source_db" SOURCE_DB config
                       ++ "." ++ name in
  match outcome with
  | Ok result =>
      if String.eqb (status result) "completed" then
        ret ((successful_migrations ++ [result])%list, failed_migrations)
      else
        ret (successful_migrations, (failed_migrations ++ [result])%list)
  | Raise exc =>
      print ("An exception occurred during migration of " ++ collection_id
             ++ ": " ++ exc_str exc);;
      ret (successful_migrations,
           (failed_migrations
            ++ [mkresult "failed" collection_id None (Some (exc_str exc))])%list)
  end.

(** Lines 283-294. *)
Fixpoint collect (completion : list (dict string * result job_result))
         (successful_migrations failed_migrations : list job_result)
  : M (list job_result * list job_result) :=
  match completion with
  | [] => ret (successful_migrations, failed_migrations)
  | (config, outcome) :: tl =>
      lists <- collect_one config outcome successful_migrations
                 failed_migrations;;
      collect tl (fst lists) (snd lists)
  end.

Fixpoint print_each (lines : list string) : M unit :=
  match lines with
  | [] => ret tt
  | line :: tl => print line;; print_each tl
  end.

(** [r.get('verification', 'N/A')] *)
Definition verification_or_na (r : job_result) : string :=
  match verification r with
  | Some v => v
  | None => "N/A"
  end.

(** Lines 302-311. *)
Definition print_summary (successful_migrations failed_migrations
                          : list job_result) : M unit :=
  print (newline ++ "Successful migrations ("
         ++ str_of_int (Z.of_nat (List.length successful_migrations)) ++ "):");;
  print_each (map (fun r => "  - " ++ collection r ++ " (Verification: "
                            ++ verification_or_na r ++ ")")
                  successful_migrations);;
  match failed_migrations with
  | _ :: _ =>
      print (newline ++ "Failed migrations ("
             ++ str_of_int (Z.of_nat (List.length failed_migrations)) ++ "):");;
      print_each (map (fun r => "  - " ++ collection r) failed_migrations)
  | [] => print (newline ++ "All migrations completed successfully!")
  end.

(** Lines 269-312; [now_start] and [now_end] are the two readings of
    [datetime.now()]. *)
Definition main (now_start now_end : datetime)
           (completion : list (dict string * result job_result)) : M unit :=
  print ("Migration process started at " ++ strftime now_start);;
  when DEBUG_MODE (print "--- DEBUG MODE IS ENABLED ---");;
  print (str_mul "-" 50);;
  lists <- collect completion [] [];;
  print (str_mul "-" 50);;
  print ("Migration process finished at " ++ strftime now_end);;
  print ("Total duration: " ++ format_2f (total_seconds now_end now_start)
         ++ " seconds");;
  print (newline ++ "--- Migration Summary ---");;
  print_summary (fst lists) (snd lists).
End Main.

(** *** A model of the two formats *)

Module Py310Format.

Fixpoint pad_left (width : nat) (s : string) : string :=
  match width with
  | O => s
  | S w' => if (String.length s <=? w')%nat then pad_left w' ("0" ++ s) else s
  end.

Definition digits (width : nat) (n : Z) : string :=
  pad_left width (str_of_int n).

(** [%Y-%m-%d %H:%M:%S] *)
Definition strftime (t : datetime) : string :=
  digits 4 (year t) ++ "-" ++ digits 2 (month t) ++ "-" ++ digits 2 (day t)
  ++ " " ++ digits 2 (hour t) ++ ":" ++ digits 2 (minute t) ++ ":"
  ++ digits 2 (second t).

(** The value of a finite binary64 as a quotient of integers. *)
Definition float_quotient (f : float64) : Z * Z * bool :=
  let negative := Z.testbit f 63 in
  let e := Z.land (Z.shiftr f 52) 2047 in
  let m := Z.land f (2 ^ 52 - 1) in
  let significand := if e =? 0 then m else m + 2 ^ 52 in
  let exponent := (if e =? 0 then 1 else e) - 1075 in
  if 0 <=? exponent then (significand * 2 ^ exponent, 1, negative)
  else (significand, 2 ^ (- exponent), negative).

(** [.2f] of a finite float: the exact value rounded to hundredths, ties to
    even. *)
Definition format_2f (f : float64) : string :=
  let '(num, den, negative) := float_quotient f in
  let q := (num * 100) / den in
  let r := (num * 100) mod den in
  let hundredths :=
    if (den <? 2 * r) || ((2 * r =? den) && Z.odd q) then q + 1 else q in
  (if negative then "-" else EmptyString)
  ++ str_of_int (hundredths / 100) ++ "." ++ digits 2 (hundredths mod 100).

End Py310Format.

Definition py310_format : PyFormat :=
  Build_PyFormat Py310Format.strftime Py310Format.format_2f.

(** ** Vocabulary of the properties *)

(** The filter of [update_migration_log]: the identity key of a record. *)
Definition key_filter (source_db source_collection : pyval) : dict pyval :=
  [("source_db", source_db); ("source_collection", source_collection)].

(** The audit records with a given identity key. *)
Definition records_for (source_db source_collection : pyval)
           (docs : list (dict pyval)) : list (dict pyval) :=
  filter (doc_matches (key_filter source_db source_collection)) docs.

(** The world [update_migration_log] leaves behind: an acknowledged write
    reaches the audit collection, a refused one is reported on the
    console. *)
Definition log_world {L : PyLib} (o : option exc) (log_data : dict pyval)
           (source_db source_collection : pyval) (w : world) : world :=
  match o with
  | None =>
      mkworld (update_one_upsert (key_filter source_db source_collection)
                                 log_data (audit w))
              (open_clients w) (fresh w) (console w) (spawned w) (counted w)
  | Some ex =>
      mkworld (audit w) (open_clients w) (fresh w)
              (console w ++
               ["Error updating migration log for " ++ format_value source_db
                ++ "." ++ format_value source_collection ++ ": " ++ exc_str ex])
              (spawned w) (counted w)
  end.

(** The same run with another answer to the final-status write. *)
Definition with_final_write (o : option exc) (e : env) : env :=
  mkenv (log_connect e) (running_write e) (dump_spawn e) (restore_spawn e)
        (restore_returncode e) (restore_stderr e) (dump_returncode e)
        (dump_stderr e) (source_connect e) (target_connect e)
        (source_count e) (target_count e) o
        (utcnow_start e) (utcnow_end e) (utcnow_end' e).

(** [text in line] *)
Definition mentions (text line : string) : bool :=
  match index 0 text line with
  | Some _ => true
  | None => false
  end.

Fixpoint texts_of (v : pyval) : list string :=
  match v with
  | PStr s => [s]
  | PList l => flat_map texts_of l
  | PDict d => flat_map (fun kv => texts_of (snd kv)) d
  | _ => []
  end.

Definition option_text (o : option string) : list string :=
  match o with Some s => [s] | None => [] end.

(** Every text a job leaves for its operator: the returned result, the
    console and the audit records. *)
Definition diagnostics (r : job_result) (w : world) : list string :=
  (status r :: collection r :: option_text (verification r)
   ++ option_text (error r) ++ console w
   ++ flat_map (flat_map (fun kv => texts_of (snd kv))) (audit w))%list.

Definition kept_for_diagnosis (text : string) (r : job_result) (w : world)
  : bool :=
  existsb (mentions text) (diagnostics r w).

(** *** Sample runs *)

Definition noon : datetime := mkdt 2024 5 17 12 0 0 0 None.
Definition noon_and_5s : datetime := mkdt 2024 5 17 12 0 5 0 None.

(** Nothing goes wrong: the source holds [n] matching documents, the target
    [m]. *)
Definition calm (n m : Z) : env :=
  mkenv Connected None None None 0 EmptyString 0 EmptyString
        Connected Connected (fun _ _ _ => Ok n) (fun _ _ _ => Ok m) None
        noon noon_and_5s noon_and_5s.

Definition refused : exc := mkexc "OperationFailure" "not authorized".

(** The store refuses the [running] record; the rest is calm. *)
Definition running_write_refused : env :=
  mkenv Connected (Some refused) None None 0 EmptyString 0 EmptyString
        Connected Connected (fun _ _ _ => Ok 7) (fun _ _ _ => Ok 7) None
        noon noon_and_5s noon_and_5s.

(** mongodump exits 1; mongorestore exits 0 after a warning of its own. *)
Definition dump_fails : env :=
  mkenv Connected None None None
        0 "restore: 0 documents restored"
        1 "dump: ns not found"
        Connected Connected (fun _ _ _ => Ok 0) (fun _ _ _ => Ok 0) None
        noon noon_and_5s noon_and_5s.

(** Both processes exit 1, each with a text of its own. *)
Definition both_fail : env :=
  mkenv Connected None None None
        1 "restore: no reachable servers"
        1 "dump: authentication failed"
        Connected Connected (fun _ _ _ => Ok 0) (fun _ _ _ => Ok 0) None
        noon noon_and_5s noon_and_5s.

(** mongodump exits 0, mongorestore exits 1. *)
Definition restore_fails : env :=
  mkenv Connected None None None
        1 "restore: connection reset"
        0 EmptyString
        Connected Connected (fun _ _ _ => Ok 0) (fun _ _ _ => Ok 0) None
        noon noon_and_5s noon_and_5s.

(** The transfer goes through and both verification clients open, then the
    count on the source raises. *)
Definition source_count_fails : env :=
  mkenv Connected None None None 0 EmptyString 0 EmptyString
        Connected Connected
        (fun _ _ _ => Raise (mkexc "OperationFailure" "unknown operator: $foo"))
        (fun _ _ _ => Ok 7) None
        noon noon_and_5s noon_and_5s.

(** The audit store cannot be reached. *)
Definition audit_store_down : env :=
  mkenv (ConnectionFailure "localhost:20000: [Errno 111] Connection refused")
        None None None 0 EmptyString 0 EmptyString
        Connected Connected (fun _ _ _ => Ok 7) (fun _ _ _ => Ok 7) None
        noon noon_and_5s noon_and_5s.

Definition empty_world : world := mkworld [] [] 0 [] [] [].

(** The first and the fourth job of COLLECTIONS_TO_MIGRATE, and a job that
    names its source database only. *)
Definition job_dk1 : dict string :=
  [("name", "dk1"); ("target_db", "target_test"); ("query", Py310.query_dk1)].
Definition job_dk4 : dict string :=
  [("name", "dk4"); ("target_db", "target_test")].
Definition job_source_only : dict string :=
  [("source_db", "test1"); ("name", "dk1")].

(** A [log_data] that carries the identity key once. *)
Definition keyed (source_db source_collection : string) (log_data : dict pyval)
  : Prop :=
  dict_get "source_db" log_data = Some (PStr source_db) /\
  dict_get "source_collection" log_data = Some (PStr source_collection) /\
  NoDup (map fst log_data).

(** The audit collection after a series of acknowledged writes for one
    identity key. *)
Definition apply_writes (source_db source_collection : string)
           (writes : list (dict pyval)) (docs : list (dict pyval))
  : list (dict pyval) :=
  fold_left (fun docs log_data =>
               update_one_upsert
                 (key_filter (PStr source_db) (PStr source_collection))
                 log_data docs)
            writes docs.


(** *** Further sample runs *)

(** mongodump is not installed: [Popen] raises. *)
Definition dump_missing : env :=
  mkenv Connected None
        (Some (mkexc "FileNotFoundError"
                     "[Errno 2] No such file or directory: 'mongodump'"))
        None 0 EmptyString 0 EmptyString
        Connected Connected (fun _ _ _ => Ok 7) (fun _ _ _ => Ok 7) None
        noon noon_and_5s noon_and_5s.

(** mongorestore is not installed. *)
Definition restore_missing : env :=
  mkenv Connected None None
        (Some (mkexc "FileNotFoundError"
                     "[Errno 2] No such file or directory: 'mongorestore'"))
        0 EmptyString 0 EmptyString
        Connected Connected (fun _ _ _ => Ok 7) (fun _ _ _ => Ok 7) None
        noon noon_and_5s noon_and_5s.

(** The transfer goes through, then the source store cannot be reached for
    the count. *)
Definition source_down_for_count : env :=
  mkenv Connected None None None 0 EmptyString 0 EmptyString
        (ConnectionFailure "localhost:30000: [Errno 111] Connection refused")
        Connected (fun _ _ _ => Ok 7) (fun _ _ _ => Ok 7) None
        noon noon_and_5s noon_and_5s.

(** A job whose filter is no JSON text, and a job without the required
    [name]. *)
Definition job_bad_query : dict string :=
  [("name", "dk4"); ("query", "all")].
Definition job_nameless : dict string :=
  [("source_db", "test1"); ("target_db", "target_test")].

(** The same run with other answers to the two audit writes. *)
Definition with_writes (running final : option exc) (e : env) : env :=
  mkenv (log_connect e) running (dump_spawn e) (restore_spawn e)
        (restore_returncode e) (restore_stderr e) (dump_returncode e)
        (dump_stderr e) (source_connect e) (target_connect e)
        (source_count e) (target_count e) final
        (utcnow_start e) (utcnow_end e) (utcnow_end' e).

(** No client of the world carries an identifier the world has yet to
    hand out. *)
Definition clients_known (w : world) : Prop :=
  forall c, In c (open_clients w) -> (client_id c < fresh w)%nat.

(** The transfer of a run goes through: both processes start and exit 0. *)
Definition transfer_ok (e : env) : Prop :=
  dump_spawn e = None /\ restore_spawn e = None /\
  restore_returncode e = 0 /\ dump_returncode e = 0.

(** The verification of a run goes through: both clients open, the filter
    is read and translated, and both counts come back. *)
Definition verification_ok {L : PyLib} (e : env) (config : dict string)
           (name : string) : Prop :=
  source_connect e = Connected /\ target_connect e = Connected /\
  exists flt source_n target_n,
    query_filter_for_count config = Ok flt /\
    source_count e (source_db_name config) name flt = Ok source_n /\
    target_count e (target_db_name config)
                 (target_collection_name config name) (PDict [])
    = Ok target_n.

(** *** The two lists of [main], read off the completion sequence *)

(** The entry [main] files for one completed future whose configuration
    has a [name]: in the first list when the job returned [completed], in
    the second otherwise. *)
Definition filed (p : dict string * result job_result)
  : list job_result * list job_result :=
  match snd p with
  | Ok r => if String.eqb (status r) "completed" then ([r], []) else ([], [r])
  | Raise ex =>
      ([], [mkresult "failed"
              (dict_get_default "source_db" SOURCE_DB (fst p) ++ "."
               ++ dict_get_default "name" EmptyString (fst p))
              None (Some (exc_str ex))])
  end.

Definition successes (completion : list (dict string * result job_result))
  : list job_result :=
  flat_map (fun p => fst (filed p)) completion.

Definition failures (completion : list (dict string * result job_result))
  : list job_result :=
  flat_map (fun p => snd (filed p)) completion.

(** The lines the loop prints for the futures that raised. *)
Definition exception_lines (completion : list (dict string * result job_result))
  : list string :=
  flat_map (fun p => match snd p with
                     | Ok _ => []
                     | Raise ex =>
                         ["An exception occurred during migration of "
                          ++ (dict_get_default "source_db" SOURCE_DB (fst p)
                              ++ "."
                              ++ dict_get_default "name" EmptyString (fst p))
                          ++ ": " ++ exc_str ex]
                     end) completion.

Definition named (p : dict string * result job_result) : Prop :=
  exists name, dict_get "name" (fst p) = Some name.

Definition returned_completed (p : dict string * result job_result) : Prop :=
  exists r, snd p = Ok r /\ status r = "completed".

Definition with_console (lines : list string) (w : world) : world :=
  mkworld (audit w) (open_clients w) (fresh w) (console w ++ lines)
          (spawned w) (counted w).

(** The lines of lines 302-311. *)
Definition summary_lines (successful failed : list job_result) : list string :=
  ((newline ++ "Successful migrations ("
    ++ str_of_int (Z.of_nat (List.length successful)) ++ "):")%string
   :: map (fun r => "  - " ++ collection r ++ " (Verification: "
                    ++ verification_or_na r ++ ")")%string successful
   ++ match failed with
      | _ :: _ =>
          (newline ++ "Failed migrations ("
           ++ str_of_int (Z.of_nat (List.length failed)) ++ "):")%string
          :: map (fun r => "  - " ++ collection r)%string failed
      | [] => [(newline ++ "All migrations completed successfully!")%string]
      end)%list.

(** ** Induction on values *)

Section PyvalInduction.
Variable P : pyval -> Prop.
Hypothesis HNone : P PNone.
Hypothesis HBool : forall b, P (PBool b).
Hypothesis HInt : forall n, P (PInt n).
Hypothesis HFloat : forall f, P (PFloat f).
Hypothesis HStr : forall s, P (PStr s).
Hypothesis HDatetime : forall d, P (PDatetime d).
Hypothesis HList : forall l, Forall P l -> P (PList l).
Hypothesis HDict : forall d, Forall (fun kv => P (snd kv)) d -> P (PDict d).

Fixpoint pyval_nested_ind (v : pyval) : P v :=
  match v with
  | PNone => HNone
  | PBool b => HBool b
  | PInt n => HInt n
  | PFloat f => HFloat f
  | PStr s => HStr s
  | PDatetime d => HDatetime d
  | PList l =>
      HList ((fix go (l : list pyval) : Forall P l :=
                match l with
                | [] => Forall_nil _
                | x :: tl => Forall_cons x (pyval_nested_ind x) (go tl)
                end) l)
  | PDict d =>
      HDict ((fix go (d : list (string * pyval))
                : Forall (fun kv => P (snd kv)) d :=
                match d with
                | [] => Forall_nil _
                | kv :: tl =>
                    Forall_cons kv (pyval_nested_ind (snd kv)) (go tl)
                end) d)
  end.
End PyvalInduction.

(** * Properties *)


(** ** Dictionaries *)

Lemma existsb_eqb_In (k : string) (l : list string) :
  existsb (String.eqb k) l = true <-> In k l.
Proof.
  rewrite existsb_exists. split.
  - intros [x [Hin Heq]]. apply String.eqb_eq in Heq. now subst.
  - intros Hin. exists k. split; [assumption | apply String.eqb_refl].
Qed.

Lemma distinct_NoDup (l : list string) : distinct l = true <-> NoDup l.
Proof.
  induction l as [|k tl IH]; simpl.
  - split; [constructor | reflexivity].
  - rewrite andb_true_iff, negb_true_iff, IH. split.
    + intros [Hk Htl]. constructor; [|assumption].
      intro Hin. apply existsb_eqb_In in Hin. congruence.
    + intros Hnd. inversion Hnd as [|x xs Hnotin Hnd']; subst.
      split; [|assumption].
      destruct (existsb (String.eqb k) tl) eqn:E; [|reflexivity].
      apply existsb_eqb_In in E. contradiction.
Qed.

Lemma dict_get_None (V : Type) (k : string) (d : dict V) :
  dict_get k d = None <-> ~ In k (map fst d).
Proof.
  induction d as [|[k' v] tl IH]; simpl.
  - tauto.
  - destruct (String.eqb k k') eqn:E.
    + apply String.eqb_eq in E. subst.
      split; [discriminate | intros H; exfalso; auto].
    + apply String.eqb_neq in E. rewrite IH. split.
      * intros H [H1|H1]; [congruence | contradiction].
      * intros H H1. apply H. now right.
Qed.

Lemma dict_set_fresh (V : Type) (k : string) (v : V) (d : dict V) :
  ~ In k (map fst d) -> dict_set k v d = (d ++ [(k, v)])%list.
Proof.
  induction d as [|[k' v'] tl IH]; simpl; intros Hnotin.
  - reflexivity.
  - destruct (String.eqb k k') eqn:E.
    + apply String.eqb_eq in E. subst. exfalso. auto.
    + rewrite IH; [reflexivity | intro H; apply Hnotin; now right].
Qed.

Lemma dict_get_set_same (V : Type) (k : string) (v : V) (d : dict V) :
  dict_get k (dict_set k v d) = Some v.
Proof.
  induction d as [|[k' v'] tl IH]; simpl.
  - now rewrite String.eqb_refl.
  - destruct (String.eqb k k') eqn:E; simpl; rewrite E;
      [reflexivity | exact IH].
Qed.

Lemma dict_get_set_other (V : Type) (k k0 : string) (v : V) (d : dict V) :
  k0 <> k -> dict_get k0 (dict_set k v d) = dict_get k0 d.
Proof.
  intros Hne. induction d as [|[k' v'] tl IH]; simpl.
  - apply String.eqb_neq in Hne. now rewrite Hne.
  - destruct (String.eqb k k') eqn:E; simpl.
    + apply String.eqb_eq in E. subst k'.
      apply String.eqb_neq in Hne. now rewrite Hne.
    + destruct (String.eqb k0 k'); [reflexivity | exact IH].
Qed.

(** Whether a dictionary is a [$date] wrapper depends on its keys only. *)
Lemma is_date_object_keys (d d' : dict pyval) :
  map fst d = map fst d' -> is_date_object d = is_date_object d'.
Proof.
  intros Hkeys. unfold is_date_object, dict_contains.
  assert (Hlen : List.length d = List.length d').
  { rewrite <- (length_map fst d), <- (length_map fst d'). now rewrite Hkeys. }
  rewrite Hlen. f_equal.
  destruct (dict_get "$date" d) eqn:E1, (dict_get "$date" d') eqn:E2;
    try reflexivity.
  - apply dict_get_None in E2. rewrite <- Hkeys in E2.
    apply dict_get_None in E2. congruence.
  - apply dict_get_None in E1. rewrite Hkeys in E1.
    apply dict_get_None in E1. congruence.
Qed.

(** ** The filter translator *)

Section TranslatorFacts.
Context {L : PyLib}.

Let convert := convert_extended_json_to_native.

Lemma convert_dict (d : dict pyval) :
  convert (PDict d) =
  if is_date_object d then
    match dict_get "$date" d with
    | Some dt => convert_date dt
    | None => Raise (mkexc "KeyError" "'$date'")
    end
  else convert_items convert d [].
Proof.
  unfold convert. simpl. destruct (is_date_object d); [reflexivity|].
  generalize (@nil (string * pyval)).
  induction d as [|[k v] tl IH]; intros acc; simpl; [reflexivity|].
  destruct (convert_extended_json_to_native v); [apply IH | reflexivity].
Qed.

Lemma convert_list (l : list pyval) :
  convert (PList l) =
  match convert_each convert l with
  | Ok vs => Ok (PList vs)
  | Raise e => Raise e
  end.
Proof.
  unfold convert. simpl.
  match goal with |- match ?a with _ => _ end = match ?b with _ => _ end =>
    assert (Heq : a = b) end.
  { induction l as [|x tl IH]; simpl; [reflexivity|].
    destruct (convert_extended_json_to_native x); [|reflexivity].
    now rewrite IH. }
  now rewrite Heq.
Qed.

(** The dictionary loop, on items whose keys are new to the accumulator:
    it appends one item per input item, with the same key. *)
Lemma convert_items_spec (f : pyval -> result pyval) :
  forall (d acc : dict pyval) (r : pyval),
    NoDup (map fst acc ++ map fst d) ->
    convert_items f d acc = Ok r ->
    exists d', r = PDict (acc ++ d') /\ map fst d' = map fst d /\
               Forall2 (fun kv kv' => f (snd kv) = Ok (snd kv')) d d'.
Proof.
  induction d as [|[k v] tl IH]; intros acc r Hnd Hrun; simpl in *.
  - inversion Hrun; subst. exists []. rewrite app_nil_r. auto.
  - destruct (f v) as [v'|e] eqn:Hv; [|discriminate].
    assert (Hfresh : ~ In k (map fst acc)).
    { intro Hin. apply NoDup_remove_2 in Hnd. apply Hnd.
      apply in_or_app. now left. }
    rewrite (dict_set_fresh _ _ _ Hfresh) in Hrun.
    apply IH in Hrun.
    + destruct Hrun as [d' [Hr [Hk Hall]]].
      exists ((k, v') :: d'). rewrite <- app_assoc in Hr. simpl in Hr.
      split; [assumption|]. split; [simpl; now rewrite Hk|].
      constructor; assumption.
    + rewrite map_app. simpl. rewrite <- app_assoc. simpl.
      apply NoDup_Add with (a := k) (l := (map fst acc ++ map fst tl)%list).
      * apply Add_app.
      * split.
        -- eapply NoDup_remove_1; eassumption.
        -- eapply NoDup_remove_2; eassumption.
Qed.

(** The loop is the identity on items that translate to themselves. *)
Lemma convert_items_fixed (f : pyval -> result pyval) :
  forall (d acc : dict pyval),
    NoDup (map fst acc ++ map fst d) ->
    Forall (fun kv => f (snd kv) = Ok (snd kv)) d ->
    convert_items f d acc = Ok (PDict (acc ++ d)).
Proof.
  induction d as [|[k v] tl IH]; intros acc Hnd Hall; simpl.
  - now rewrite app_nil_r.
  - inversion Hall as [|x xs Hv Htl]; subst. simpl in Hv. rewrite Hv.
    assert (Hfresh : ~ In k (map fst acc)).
    { intro Hin. apply NoDup_remove_2 in Hnd. apply Hnd.
      apply in_or_app. now left. }
    rewrite (dict_set_fresh _ _ _ Hfresh), IH.
    + now rewrite <- app_assoc.
    + rewrite map_app. simpl. rewrite <- app_assoc. simpl.
      apply NoDup_Add with (a := k) (l := (map fst acc ++ map fst tl)%list).
      * apply Add_app.
      * split.
        -- eapply NoDup_remove_1; eassumption.
        -- eapply NoDup_remove_2; eassumption.
    + assumption.
Qed.

Lemma convert_each_fixed (f : pyval -> result pyval) (l : list pyval) :
  Forall (fun v => f v = Ok v) l -> convert_each f l = Ok l.
Proof.
  induction 1 as [|x tl Hx Htl IH]; simpl; [reflexivity|].
  now rewrite Hx, IH.
Qed.

Lemma convert_each_spec (f : pyval -> result pyval) :
  forall (l vs : list pyval),
    convert_each f l = Ok vs -> Forall2 (fun v v' => f v = Ok v') l vs.
Proof.
  induction l as [|x tl IH]; intros vs Hrun; simpl in Hrun.
  - inversion Hrun. constructor.
  - destruct (f x) as [v|e] eqn:Hx; [|discriminate].
    destruct (convert_each f tl) as [vs'|e]; [|discriminate].
    inversion Hrun; subst. constructor; auto.
Qed.

(** What the translator returns is well formed and is left alone by a
    second translation. *)
Lemma convert_stable (v : pyval) :
  well_formed v = true ->
  forall w, convert v = Ok w -> well_formed w = true /\ convert w = Ok w.
Proof.
  induction v as [| | | | | |l IH|d IH] using pyval_nested_ind;
    intros Hwf w Hrun;
    try (unfold convert in Hrun; simpl in Hrun; inversion Hrun; subst;
         split; reflexivity).
  - (* list *)
    rewrite convert_list in Hrun.
    destruct (convert_each convert l) as [vs|e] eqn:Heach; [|discriminate].
    inversion Hrun; subst w. clear Hrun.
    apply convert_each_spec in Heach.
    simpl in Hwf. rewrite forallb_forall in Hwf.
    assert (Hall : Forall (fun v' => well_formed v' = true /\
                                     convert v' = Ok v') vs).
    { clear - IH Hwf Heach. induction Heach as [|x y xs ys Hxy Hrest IHrest].
      - constructor.
      - inversion IH; subst. constructor.
        + apply H1; [apply Hwf; now left | assumption].
        + apply IHrest; [assumption|]. intros z Hz. apply Hwf. now right. }
    split.
    + simpl. apply forallb_forall. intros x Hx.
      rewrite Forall_forall in Hall. now apply Hall.
    + rewrite convert_list, convert_each_fixed; [reflexivity|].
      eapply Forall_impl; [|exact Hall]. now intros a [_ Ha].
  - (* dict *)
    rewrite convert_dict in Hrun.
    destruct (is_date_object d) eqn:Hdate.
    + destruct (dict_get "$date" d) as [dt|]; [|discriminate].
      unfold convert_date in Hrun.
      destruct dt; try discriminate.
      destruct (fromisoformat _); [|discriminate].
      inversion Hrun; subst. split; reflexivity.
    + simpl in Hwf. apply andb_true_iff in Hwf. destruct Hwf as [Hkeys Hvals].
      apply distinct_NoDup in Hkeys. rewrite forallb_forall in Hvals.
      apply convert_items_spec in Hrun; [|assumption].
      destruct Hrun as [d' [Hw [Hk Hall]]]. simpl in Hw. subst w.
      assert (Hall' : Forall (fun kv => well_formed (snd kv) = true /\
                                        convert (snd kv) = Ok (snd kv)) d').
      { clear - IH Hvals Hall. induction Hall as [|x y xs ys Hxy Hrest IHrest].
        - constructor.
        - inversion IH; subst. constructor.
          + apply H1; [apply Hvals; now left | assumption].
          + apply IHrest; [assumption|]. intros z Hz. apply Hvals. now right. }
      split.
      * simpl. apply andb_true_iff. split.
        -- rewrite Hk. now apply distinct_NoDup.
        -- apply forallb_forall. intros x Hx.
           rewrite Forall_forall in Hall'. now apply Hall'.
      * rewrite convert_dict, (is_date_object_keys d' d Hk), Hdate.
        rewrite convert_items_fixed; [reflexivity | simpl; now rewrite Hk |].
        eapply Forall_impl; [|exact Hall']. now intros a [_ Ha].
Qed.

(** A value without a [$date] wrapper translates to itself. *)
Lemma convert_plain (v : pyval) :
  well_formed v = true -> has_date_object v = false -> convert v = Ok v.
Proof.
  induction v as [| | | | | |l IH|d IH] using pyval_nested_ind;
    intros Hwf Hplain; try reflexivity.
  - rewrite convert_list, convert_each_fixed; [reflexivity|].
    simpl in Hwf, Hplain. rewrite forallb_forall in Hwf.
    rewrite Forall_forall in *. intros x Hx. apply IH; [assumption | auto |].
    destruct (has_date_object x) eqn:E; [|reflexivity].
    assert (existsb has_date_object l = true)
      by (apply existsb_exists; eauto). congruence.
  - simpl in Hwf, Hplain. apply andb_true_iff in Hwf.
    destruct Hwf as [Hkeys Hvals].
    apply orb_false_iff in Hplain. destruct Hplain as [Hdate Hinner].
    rewrite convert_dict, Hdate.
    rewrite convert_items_fixed;
      [reflexivity | simpl; now apply distinct_NoDup |].
    rewrite forallb_forall in Hvals.
    rewrite Forall_forall in *. intros x Hx. apply IH; [assumption | auto |].
    destruct (has_date_object (snd x)) eqn:E; [|reflexivity].
    assert (existsb (fun kv => has_date_object (snd kv)) d = true)
      by (apply existsb_exists; eauto). congruence.
Qed.
End TranslatorFacts.

(** ** The zero-offset rewriting *)

Lemma length_snoc_Z (p : string) :
  String.length (p ++ "Z") = S (String.length p).
Proof. induction p as [|c p IH]; simpl; [reflexivity | now rewrite IH]. Qed.

Lemma substring_last_Z (p : string) :
  substring (String.length p) 1 (p ++ "Z") = "Z".
Proof. induction p as [|c p IH]; simpl; [reflexivity | exact IH]. Qed.

Lemma substring_front (p q : string) :
  substring 0 (String.length p) (p ++ q) = p.
Proof.
  induction p as [|c p IH]; simpl.
  - destruct q; reflexivity.
  - now rewrite IH.
Qed.

Lemma endswith_snoc_Z (p : string) : endswith (p ++ "Z") "Z" = true.
Proof.
  unfold endswith. rewrite length_snoc_Z.
  change (String.length "Z") with 1%nat.
  replace (S (String.length p) - 1)%nat with (String.length p) by lia.
  rewrite substring_last_Z. reflexivity.
Qed.

Lemma drop_last_snoc_Z (p : string) : drop_last (p ++ "Z") = p.
Proof.
  unfold drop_last. rewrite length_snoc_Z.
  replace (S (String.length p) - 1)%nat with (String.length p) by lia.
  apply substring_front.
Qed.

Lemma endswith_Z_inv (s : string) :
  endswith s "Z" = true -> s = drop_last s ++ "Z".
Proof.
  unfold endswith, drop_last. change (String.length "Z") with 1%nat.
  induction s as [|c tl IH]; [discriminate|].
  destruct tl as [|c' tl'].
  - intros H. apply andb_true_iff in H. destruct H as [_ H].
    apply String.eqb_eq in H. simpl in H. simpl. exact H.
  - intros H. apply andb_true_iff in H. destruct H as [_ H].
    replace (String.length (String c (String c' tl')) - 1)%nat
      with (S (String.length tl')) in * by (simpl; lia).
    replace (String.length (String c' tl') - 1)%nat
      with (String.length tl') in IH by (simpl; lia).
    change (substring (S (String.length tl')) 1 (String c (String c' tl')))
      with (substring (String.length tl') 1 (String c' tl')) in H.
    change (substring 0 (S (String.length tl')) (String c (String c' tl')))
      with (String c (substring 0 (String.length tl') (String c' tl'))).
    simpl append. f_equal. apply IH.
    apply andb_true_iff. split; [reflexivity | exact H].
Qed.

Lemma zero_offset_snoc_Z (p : string) : zero_offset (p ++ "Z") = p ++ "+00:00".
Proof. unfold zero_offset. now rewrite endswith_snoc_Z, drop_last_snoc_Z. Qed.

Lemma zero_offset_other (s : string) :
  (forall p, s <> p ++ "Z") -> zero_offset s = s.
Proof.
  intros Hno. unfold zero_offset.
  destruct (endswith s "Z") eqn:E; [|reflexivity].
  apply endswith_Z_inv in E. exfalso. exact (Hno _ E).
Qed.

(** ** The claims on the filter translator *)

(** C1. An object whose only key is ["$date"], holding a string that
    [datetime.fromisoformat] accepts once a trailing [Z] is rewritten to
    [+00:00], translates to the timestamp parsed from the rewritten string;
    the rewriting turns [p ++ "Z"] into [p ++ "+00:00"] and leaves every
    other string alone. *)
Theorem date_object_translates_to_timestamp
        (L : PyLib) (s : string) (d : datetime) :
  fromisoformat (zero_offset s) = Ok d ->
  convert_extended_json_to_native (PDict [("$date", PStr s)]) = Ok (PDatetime d)
  /\ (forall p, s = p ++ "Z" -> zero_offset s = p ++ "+00:00")
  /\ ((forall p, s <> p ++ "Z") -> zero_offset s = s).
Proof.
  intros Hparse. split; [|split].
  - rewrite convert_dict. unfold is_date_object, dict_contains. simpl.
    unfold convert_date. now rewrite Hparse.
  - intros p ->. apply zero_offset_snoc_Z.
  - apply zero_offset_other.
Qed.

(** The example of the specification, on the Python 3.10 parser. *)
Lemma date_object_translates_to_timestamp_witness :
  fromisoformat (PyLib := py310) (zero_offset "2018-02-15T15:55:00.176Z")
  = Ok (mkdt 2018 2 15 15 55 0 176000 (Some 0))
  /\ convert_extended_json_to_native (L := py310)
       (PDict [("$date", PStr "2018-02-15T15:55:00.176Z")])
     = Ok (PDatetime (mkdt 2018 2 15 15 55 0 176000 (Some 0)))
  /\ zero_offset "2018-02-15T15:55:00.176Z" = "2018-02-15T15:55:00.176+00:00".
Proof.
  split; [reflexivity|]. split.
  - exact (proj1 (@date_object_translates_to_timestamp py310
                    "2018-02-15T15:55:00.176Z"
                    (mkdt 2018 2 15 15 55 0 176000 (Some 0)) eq_refl)).
  - reflexivity.
Defined.

(** C9. A filter with no sole-key ["$date"] object anywhere inside it
    translates to itself: same keys in the same order, same array elements
    in the same order, same scalars. *)
Theorem translation_without_date_is_identity (L : PyLib) (v : pyval) :
  well_formed v = true ->
  has_date_object v = false ->
  convert_extended_json_to_native v = Ok v.
Proof. apply convert_plain. Qed.

Lemma translation_without_date_is_identity_witness :
  let v := PDict [("fld4", PStr "magna aliquyam erat, sed diam");
                  ("$date", PInt 3);
                  ("fld6", PList [PInt 437549; PNone;
                                  PDict [("a", PBool true)]])] in
  well_formed v = true /\ has_date_object v = false /\
  convert_extended_json_to_native (L := py310) v = Ok v.
Proof.
  split; [reflexivity|]. split; [reflexivity|].
  apply (@translation_without_date_is_identity py310); reflexivity.
Defined.

(** C10. The translator is idempotent: what it returns is returned again
    when it is translated a second time. *)
Theorem translation_idempotent (L : PyLib) (v w : pyval) :
  well_formed v = true ->
  convert_extended_json_to_native v = Ok w ->
  convert_extended_json_to_native w = Ok w.
Proof.
  intros Hwf Hrun. exact (proj2 (convert_stable v Hwf Hrun)).
Qed.

Lemma translation_idempotent_witness :
  let v := PDict [("fld1", PDict [("$gt",
                    PDict [("$date", PStr "2018-02-15T15:55:00.176Z")])]);
                  ("tags", PList [PStr "a";
                                  PDict [("$date", PStr "2020-01-01")]])] in
  let w := PDict [("fld1", PDict [("$gt",
                    PDatetime (mkdt 2018 2 15 15 55 0 176000 (Some 0)))]);
                  ("tags", PList [PStr "a";
                    PDatetime (mkdt 2020 1 1 0 0 0 0 None)])] in
  well_formed v = true /\
  convert_extended_json_to_native (L := py310) v = Ok w /\
  convert_extended_json_to_native (L := py310) w = Ok w.
Proof.
  split; [reflexivity|]. split; [reflexivity|].
  apply (@translation_idempotent py310
           (PDict [("fld1", PDict [("$gt",
                      PDict [("$date", PStr "2018-02-15T15:55:00.176Z")])]);
                   ("tags", PList [PStr "a";
                                   PDict [("$date", PStr "2020-01-01")]])]));
    reflexivity.
Defined.

(** ** The job *)

(** The sample jobs are the first and the fourth of the list, and every job
    of the list has the [name] that line 164 reads. *)
Lemma sample_jobs_are_listed :
  nth 0 COLLECTIONS_TO_MIGRATE [] = job_dk1 /\
  nth 3 COLLECTIONS_TO_MIGRATE [] = job_dk4 /\
  forallb (dict_contains "name") COLLECTIONS_TO_MIGRATE = true.
Proof. repeat split; reflexivity. Qed.

Section JobFacts.
Context {L : PyLib}.

(** [update_migration_log] never raises on a [log_data] that carries the
    identity key. *)
Lemma update_migration_log_run (o : option exc) (lc : collection_handle)
      (ld : dict pyval) (a b : pyval) (w : world) :
  dict_get "source_db" ld = Some a ->
  dict_get "source_collection" ld = Some b ->
  update_migration_log o lc ld w = (Ok tt, log_world o ld a b w).
Proof.
  intros Ha Hb.
  unfold update_migration_log, try_except, bind, subscript, update_one,
    log_world, key_filter.
  rewrite Ha, Hb. destruct o; reflexivity.
Qed.

(** The answer to the final-status write plays no part before that
    write. *)
Lemma transfer_and_verify_final_write (o : option exc) (e : env)
      (config : dict string) (name : string) :
  transfer_and_verify (with_final_write o e) config name
  = transfer_and_verify e config name.
Proof. reflexivity. Qed.
End JobFacts.

(** Unfolds the job and the monad, leaving texts, commands and the audit
    write folded. *)
Ltac run :=
  cbv beta iota zeta delta
    [migrate_collection initial_logging transfer_and_verify transfer verify
     record_completed record_failed get_db_connection bind ret raise attempt
     try_except try_finally lift when print popen new_client close
     close_if_open count_documents subscript DEBUG_MODE fst snd audit
     open_clients fresh console spawned counted negb].

(** The same, stopping at the transfer. *)
Ltac run_outer :=
  cbv beta iota zeta delta
    [migrate_collection initial_logging
     record_completed record_failed get_db_connection bind ret raise attempt
     try_except try_finally lift when print popen new_client close
     close_if_open count_documents subscript DEBUG_MODE fst snd audit
     open_clients fresh console spawned counted negb].

Ltac log_step :=
  match goal with
  | |- context [update_migration_log ?o ?lc ?ld ?w] =>
      rewrite (@update_migration_log_run _ o lc ld _ _ w eq_refl eq_refl)
  end.

(** C7 (as amended). A job that leaves out [target_name] writes to a
    collection named like the source collection; a job that leaves out
    [target_db] writes to the global TARGET_DB, whatever its source database
    is.  The audit record and the namespace handed to mongorestore carry
    these names. *)
Theorem target_defaults (config : dict string) (name : string) (t : datetime) :
  (dict_get "target_name" config = None ->
   target_collection_name config name = name /\
   dict_get "target_collection" (initial_log_data config name t)
   = Some (PStr name))
  /\ (dict_get "target_db" config = None ->
      target_db_name config = TARGET_DB /\
      dict_get "target_db" (initial_log_data config name t)
      = Some (PStr TARGET_DB))
  /\ (dict_get "target_name" config = None ->
      dict_get "target_db" config = None ->
      last (restore_cmd config name) EmptyString
      = "--nsTo=" ++ TARGET_DB ++ "." ++ name).
Proof.
  unfold restore_cmd, initial_log_data, target_collection_name,
    target_db_name, dict_get_default.
  split; [|split].
  - intros ->. split; reflexivity.
  - intros ->. split; reflexivity.
  - intros -> ->. reflexivity.
Qed.

Lemma target_defaults_witness :
  dict_get "target_name" job_source_only = None /\
  dict_get "target_db" job_source_only = None /\
  target_collection_name job_source_only "dk1" = "dk1" /\
  target_db_name job_source_only = "test" /\
  last (restore_cmd job_source_only "dk1") EmptyString = "--nsTo=test.dk1".
Proof.
  split; [reflexivity|]. split; [reflexivity|]. split; [|split].
  - apply (proj1 (target_defaults job_source_only "dk1" noon)). reflexivity.
  - apply (proj1 (proj2 (target_defaults job_source_only "dk1" noon))).
    reflexivity.
  - apply (proj2 (proj2 (target_defaults job_source_only "dk1" noon)));
      reflexivity.
Defined.

(** C7 as stated fails: the job names the source database test1 and no
    target database, and its target database is test. *)
Lemma target_db_default_counterexample :
  dict_get "target_db" job_source_only = None /\
  source_db_name job_source_only = "test1" /\
  target_db_name job_source_only = "test" /\
  target_db_name job_source_only <> source_db_name job_source_only /\
  dict_get "target_db"
    (initial_log_data job_source_only "dk1" noon) = Some (PStr "test").
Proof.
  repeat split; try reflexivity. discriminate.
Qed.

(** C2 (as amended). When the audit connection cannot be opened, the job
    returns [failed] at once: no process is started and neither the audit
    collection nor the set of open clients changes. *)
Theorem audit_connection_failure_aborts
        (L : PyLib) (e : env) (config : dict string) (name : string)
        (w : world) :
  dict_get "name" config = Some name ->
  log_connect e <> Connected ->
  exists err,
    fst (migrate_collection e config w)
    = Ok (mkresult "failed" (collection_id config name) None (Some err))
    /\ spawned (snd (migrate_collection e config w)) = spawned w
    /\ audit (snd (migrate_collection e config w)) = audit w
    /\ open_clients (snd (migrate_collection e config w)) = open_clients w.
Proof.
  intros Hname Hconn. destruct w as [au oc fr co sp cn].
  run. rewrite Hname. run.
  destruct (log_connect e) as [|msg|ex]; [contradiction| |]; run;
    eexists; repeat split; reflexivity.
Qed.

Lemma audit_connection_failure_aborts_witness :
  dict_get "name" job_dk4 = Some "dk4" /\
  log_connect audit_store_down <> Connected /\
  exists err,
    fst (migrate_collection (L := py310) audit_store_down job_dk4 empty_world)
    = Ok (mkresult "failed" (collection_id job_dk4 "dk4") None (Some err))
    /\ spawned (snd (migrate_collection (L := py310) audit_store_down job_dk4
                       empty_world)) = spawned empty_world
    /\ audit (snd (migrate_collection (L := py310) audit_store_down job_dk4
                     empty_world)) = audit empty_world
    /\ open_clients (snd (migrate_collection (L := py310) audit_store_down
                            job_dk4 empty_world)) = open_clients empty_world.
Proof.
  split; [reflexivity|]. split; [discriminate|].
  apply (@audit_connection_failure_aborts py310 audit_store_down job_dk4 "dk4"
           empty_world); [reflexivity | discriminate].
Defined.

(** C2 as stated fails: the store refuses the [running] record, and the job
    starts both processes and returns [completed]. *)
Lemma running_write_failure_counterexample :
  running_write running_write_refused = Some refused /\
  fst (migrate_collection (L := py310) running_write_refused job_dk4
         empty_world)
  = Ok (mkresult "completed" "test.dk4" (Some "success") None) /\
  spawned (snd (migrate_collection (L := py310) running_write_refused job_dk4
                  empty_world))
  = [dump_cmd job_dk4 "dk4"; restore_cmd job_dk4 "dk4"].
Proof. repeat split; vm_compute; reflexivity. Qed.

(** C3 (as amended). When both processes were started and one of them
    exits with a non-zero code, the job returns [failed] with an error that
    names one failed stage and carries the stderr text of that stage: the
    loader when the loader failed, otherwise the extractor. *)
Theorem transfer_failure_is_reported
        (L : PyLib) (e : env) (config : dict string) (name : string)
        (w : world) :
  dict_get "name" config = Some name ->
  log_connect e = Connected ->
  dump_spawn e = None ->
  restore_spawn e = None ->
  restore_returncode e <> 0 \/ dump_returncode e <> 0 ->
  fst (migrate_collection e config w)
  = Ok (mkresult "failed" (collection_id config name) None
          (Some (if restore_returncode e =? 0
                 then "Dump failed. Stderr: " ++ dump_stderr e
                 else "Restore failed. Stderr: " ++ restore_stderr e))).
Proof.
  intros Hname Hconn Hdump Hrestore Hcode. destruct w as [au oc fr co sp cn].
  run. rewrite Hname. run. rewrite Hconn. run. log_step. run.
  rewrite Hdump, Hrestore. run.
  destruct (restore_returncode e =? 0) eqn:Hr; run.
  - destruct (dump_returncode e =? 0) eqn:Hd; run.
    + apply Z.eqb_eq in Hr, Hd. lia.
    + log_step. reflexivity.
  - log_step. reflexivity.
Qed.

Lemma transfer_failure_is_reported_witness :
  dict_get "name" job_dk4 = Some "dk4" /\
  (restore_returncode restore_fails <> 0 \/
   dump_returncode restore_fails <> 0) /\
  fst (migrate_collection (L := py310) restore_fails job_dk4 empty_world)
  = Ok (mkresult "failed" "test.dk4" None
          (Some "Restore failed. Stderr: restore: connection reset")).
Proof.
  split; [reflexivity|]. split; [left; discriminate|].
  apply (@transfer_failure_is_reported py310 restore_fails job_dk4 "dk4"
           empty_world); try reflexivity.
  left. discriminate.
Defined.

(** C3 as stated fails.  The extractor fails and the loader exits 0 after
    writing a warning: the warning is in none of the texts the job leaves
    behind.  Both stages fail: the error names the loader, and the text of
    the extractor is in none of the texts the job leaves behind. *)
Lemma other_stage_text_counterexample :
  (dump_returncode dump_fails <> 0 /\
   restore_stderr dump_fails = "restore: 0 documents restored" /\
   exists r,
     fst (migrate_collection (L := py310) dump_fails job_dk4 empty_world) = Ok r
     /\ error r = Some "Dump failed. Stderr: dump: ns not found"
     /\ kept_for_diagnosis (restore_stderr dump_fails) r
          (snd (migrate_collection (L := py310) dump_fails job_dk4 empty_world))
        = false)
  /\
  (dump_returncode both_fail <> 0 /\
   dump_stderr both_fail = "dump: authentication failed" /\
   exists r,
     fst (migrate_collection (L := py310) both_fail job_dk4 empty_world) = Ok r
     /\ error r = Some "Restore failed. Stderr: restore: no reachable servers"
     /\ kept_for_diagnosis (dump_stderr both_fail) r
          (snd (migrate_collection (L := py310) both_fail job_dk4 empty_world))
        = false).
Proof.
  split.
  - split; [discriminate|]. split; [reflexivity|].
    eexists. split; [vm_compute; reflexivity|]. split; vm_compute; reflexivity.
  - split; [discriminate|]. split; [reflexivity|].
    eexists. split; [vm_compute; reflexivity|]. split; vm_compute; reflexivity.
Qed.

(** C4. When the transfer went through and both counts were obtained, the
    job returns [completed] with verification [success] for equal counts
    and [count_mismatch] for different ones; the source is counted with the
    translated filter and the target with the empty filter. *)
Theorem counts_decide_verification
        (L : PyLib) (e : env) (config : dict string) (name : string) (w : world)
        (flt : pyval) (source_n target_n : Z) :
  dict_get "name" config = Some name ->
  log_connect e = Connected ->
  dump_spawn e = None ->
  restore_spawn e = None ->
  restore_returncode e = 0 ->
  dump_returncode e = 0 ->
  source_connect e = Connected ->
  target_connect e = Connected ->
  query_filter_for_count config = Ok flt ->
  source_count e (source_db_name config) name flt = Ok source_n ->
  target_count e (target_db_name config) (target_collection_name config name)
               (PDict []) = Ok target_n ->
  fst (migrate_collection e config w)
  = Ok (mkresult "completed" (collection_id config name)
          (Some (if source_n =? target_n then "success" else "count_mismatch"))
          None)
  /\ counted (snd (migrate_collection e config w))
     = (counted w ++
        [mkcount Source (source_db_name config) name flt;
         mkcount Target (target_db_name config)
                 (target_collection_name config name) (PDict [])])%list.
Proof.
  intros Hname Hconn Hdump Hrestore Hrc Hdc Hsrc Htgt Hflt Hsn Htn.
  destruct w as [au oc fr co sp cn].
  run. rewrite Hname. run. rewrite Hconn. run. log_step.
  unfold log_world. destruct (running_write e); run.
  all: rewrite Hdump, Hrestore, Hrc, Hdc; change (0 =? 0) with true; run.
  all: rewrite Hsrc, Htgt; run; rewrite Hflt; run; rewrite Hsn; run;
    rewrite Htn; run.
  all: destruct (source_n =? target_n); run; log_step; unfold log_world;
    destruct (final_write e); run; rewrite <- app_assoc; split; reflexivity.
Qed.

Lemma counts_decide_verification_witness :
  let flt := PDict [("fld1", PDict [("$gt",
               PDatetime (mkdt 2018 2 15 15 55 0 176000 (Some 0)))])] in
  query_filter_for_count (L := py310) job_dk1 = Ok flt /\
  fst (migrate_collection (L := py310) (calm 3 7) job_dk1 empty_world)
  = Ok (mkresult "completed" "test.dk1" (Some "count_mismatch") None) /\
  counted (snd (migrate_collection (L := py310) (calm 3 7) job_dk1 empty_world))
  = [mkcount Source "test" "dk1" flt;
     mkcount Target "target_test" "dk1" (PDict [])].
Proof.
  split; [reflexivity|].
  apply (@counts_decide_verification py310 (calm 3 7) job_dk1 "dk1" empty_world
           (PDict [("fld1", PDict [("$gt",
              PDatetime (mkdt 2018 2 15 15 55 0 176000 (Some 0)))])])
           3 7); reflexivity.
Defined.

(** The audit client, whose identifier is the first one the job draws, is
    closed when the job returns, on every path. *)
Lemma audit_client_is_closed
      (L : PyLib) (e : env) (config : dict string) (w : world) :
  (forall c, In c (open_clients w) -> (client_id c < fresh w)%nat) ->
  forall c, In c (open_clients (snd (migrate_collection e config w))) ->
            client_id c <> fresh w.
Proof.
  intros Hold c. destruct w as [au oc fr co sp cn]. simpl in Hold.
  run_outer. destruct (dict_get "name" config) as [name|]; run_outer.
  2: { intros Hin Heq. apply Hold in Hin. lia. }
  destruct (log_connect e) as [|msg|ex]; run_outer.
  2,3: intros Hin Heq; apply Hold in Hin; lia.
  log_step. run_outer.
  match goal with
  | |- context [transfer_and_verify e config name ?w1] =>
      destruct (transfer_and_verify e config name w1)
        as [[[[[[sc tc] sn] tn] vs]|ex] [au2 oc2 fr2 co2 sp2 cn2]]
  end; run_outer; log_step; unfold log_world;
    destruct (final_write e); try destruct sc; try destruct tc; run_outer.
  all: intros Hin Heq; apply filter_In in Hin; destruct Hin as [_ Hin];
    unfold client_eqb in Hin; simpl in Hin; rewrite <- Heq in Hin;
    rewrite Nat.eqb_refl in Hin; discriminate.
Qed.

(** C6 at a failing input: the transfer goes through, both verification
    clients are opened and the count on the source raises; the job returns
    [failed] and leaves these two clients open. *)
Theorem verification_clients_left_open :
  fst (migrate_collection (L := py310) source_count_fails job_dk4 empty_world)
  = Ok (mkresult "failed" "test.dk4" None (Some "unknown operator: $foo")) /\
  open_clients (snd (migrate_collection (L := py310) source_count_fails job_dk4
                       empty_world))
  = [mkclient 1 SOURCE_MONGO_URI; mkclient 2 TARGET_MONGO_URI].
Proof. split; vm_compute; reflexivity. Qed.

(** C8. Once the job is past its initial logging, a refused final-status
    write changes nothing in what the job returns: the job returns, with
    the result it returns when the write is acknowledged, and the refusal
    is reported on the console. *)
Theorem final_write_failure_is_swallowed
        (L : PyLib) (e : env) (config : dict string) (name : string) (w : world)
        (ex : exc) :
  dict_get "name" config = Some name ->
  log_connect e = Connected ->
  exists r,
    fst (migrate_collection (with_final_write (Some ex) e) config w) = Ok r
    /\ fst (migrate_collection (with_final_write None e) config w) = Ok r
    /\ In ("Error updating migration log for " ++ source_db_name config ++ "."
           ++ name ++ ": " ++ exc_str ex)
          (console (snd (migrate_collection (with_final_write (Some ex) e)
                           config w))).
Proof.
  intros Hname Hconn. destruct w as [au oc fr co sp cn].
  run_outer. rewrite Hname. run_outer.
  rewrite !transfer_and_verify_final_write.
  cbn [with_final_write log_connect running_write final_write utcnow_start
       utcnow_end utcnow_end'].
  rewrite Hconn. run_outer. log_step. run_outer.
  match goal with
  | |- context [transfer_and_verify e config name ?w1] =>
      destruct (transfer_and_verify e config name w1)
        as [[[[[[sc tc] sn] tn] vs]|ex'] [au2 oc2 fr2 co2 sp2 cn2]]
  end; run_outer.
  all: repeat log_step; unfold log_world;
    try destruct sc; try destruct tc;
    run_outer; eexists;
    (split; [reflexivity | split; [reflexivity |]]);
    unfold format_value; apply in_or_app; right; left; reflexivity.
Qed.

Lemma final_write_failure_is_swallowed_witness :
  dict_get "name" job_dk4 = Some "dk4" /\
  log_connect (calm 7 7) = Connected /\
  exists r,
    fst (migrate_collection (L := py310)
           (with_final_write (Some refused) (calm 7 7)) job_dk4 empty_world)
    = Ok r
    /\ fst (migrate_collection (L := py310) (with_final_write None (calm 7 7))
              job_dk4 empty_world) = Ok r
    /\ In ("Error updating migration log for " ++ source_db_name job_dk4 ++ "."
           ++ "dk4" ++ ": " ++ exc_str refused)
          (console (snd (migrate_collection (L := py310)
                           (with_final_write (Some refused) (calm 7 7))
                           job_dk4 empty_world))).
Proof.
  split; [reflexivity|]. split; [reflexivity|].
  apply (@final_write_failure_is_swallowed py310 (calm 7 7) job_dk4 "dk4"
           empty_world refused); reflexivity.
Defined.

(** ** The audit collection *)

Lemma dict_get_update (V : Type) (k : string) (other d : dict V) :
  NoDup (map fst other) ->
  dict_get k (dict_update d other)
  = match dict_get k other with
    | Some v => Some v
    | None => dict_get k d
    end.
Proof.
  unfold dict_update. revert d.
  induction other as [|[k1 v1] tl IH]; intros d Hnd; simpl; [reflexivity|].
  inversion Hnd as [|x xs Hnotin Hnd']; subst.
  rewrite IH by assumption.
  destruct (String.eqb k k1) eqn:E.
  - apply String.eqb_eq in E. subst k1.
    apply dict_get_None in Hnotin. rewrite Hnotin.
    apply dict_get_set_same.
  - apply String.eqb_neq in E.
    destruct (dict_get k tl); [reflexivity|].
    now apply dict_get_set_other.
Qed.


Section AuditFacts.
Variables sa sb : string.

Lemma updated_doc_matches (doc ld : dict pyval) :
  keyed sa sb ld ->
  doc_matches (key_filter (PStr sa) (PStr sb)) (dict_update doc ld) = true.
Proof.
  intros [Ha [Hb Hnd]]. unfold doc_matches, key_filter. simpl.
  rewrite !dict_get_update by assumption. rewrite Ha, Hb. simpl.
  now rewrite !String.eqb_refl.
Qed.

Lemma update_first_records (ld : dict pyval) (docs : list (dict pyval)) :
  keyed sa sb ld ->
  match update_first (key_filter (PStr sa) (PStr sb)) ld docs with
  | Some docs' =>
      exists d tl,
        records_for (PStr sa) (PStr sb) docs = d :: tl /\
        records_for (PStr sa) (PStr sb) docs' = dict_update d ld :: tl
  | None => records_for (PStr sa) (PStr sb) docs = []
  end.
Proof.
  intros Hk. unfold records_for.
  induction docs as [|doc tl IH]; cbn [update_first filter]; [reflexivity|].
  destruct (doc_matches (key_filter (PStr sa) (PStr sb)) doc) eqn:Hm.
  - exists doc, (filter (doc_matches (key_filter (PStr sa) (PStr sb))) tl).
    split; [reflexivity|].
    cbn [filter]. now rewrite updated_doc_matches.
  - destruct (update_first (key_filter (PStr sa) (PStr sb)) ld tl) as [tl'|].
    + destruct IH as [d [rest [H1 H2]]]. exists d, rest.
      split; [assumption|]. cbn [filter]. now rewrite Hm.
    + assumption.
Qed.

(** An acknowledged write leaves the records of its key as they were, the
    first one updated, or creates the only one. *)
Lemma records_after_upsert (ld : dict pyval) (docs : list (dict pyval)) :
  keyed sa sb ld ->
  records_for (PStr sa) (PStr sb)
    (update_one_upsert (key_filter (PStr sa) (PStr sb)) ld docs)
  = match records_for (PStr sa) (PStr sb) docs with
    | [] => [dict_update (key_filter (PStr sa) (PStr sb)) ld]
    | d :: tl => dict_update d ld :: tl
    end.
Proof.
  intros Hk. unfold update_one_upsert.
  pose proof (update_first_records docs Hk) as H.
  destruct (update_first (key_filter (PStr sa) (PStr sb)) ld docs) as [docs'|].
  - destruct H as [d [tl [H1 H2]]]. now rewrite H1, H2.
  - unfold records_for in *. rewrite filter_app, H. cbn [filter app].
    now rewrite updated_doc_matches.
Qed.

Lemma writes_keep_one (lds : list (dict pyval)) :
  Forall (keyed sa sb) lds ->
  forall docs,
    (List.length (records_for (PStr sa) (PStr sb) docs) <= 1)%nat ->
    (List.length (records_for (PStr sa) (PStr sb)
                              (apply_writes sa sb lds docs)) <= 1)%nat.
Proof.
  induction 1 as [|ld tl Hk Htl IH]; intros docs Hlen; simpl; [assumption|].
  apply IH. rewrite records_after_upsert by assumption.
  destruct (records_for (PStr sa) (PStr sb) docs); simpl in *; lia.
Qed.

(** After the last acknowledged write the one record of the key is an
    earlier document updated with that write. *)
Lemma last_write_record (pre : list (dict pyval)) (ld : dict pyval)
      (docs : list (dict pyval)) :
  Forall (keyed sa sb) (pre ++ [ld]) ->
  (List.length (records_for (PStr sa) (PStr sb) docs) <= 1)%nat ->
  exists d0,
    records_for (PStr sa) (PStr sb) (apply_writes sa sb (pre ++ [ld]) docs)
    = [dict_update d0 ld].
Proof.
  intros Hall Hlen.
  apply Forall_app in Hall. destruct Hall as [Hpre Hld].
  inversion Hld as [|x xs Hk _]; subst.
  unfold apply_writes. rewrite fold_left_app. simpl.
  fold (apply_writes sa sb pre docs).
  rewrite records_after_upsert by assumption.
  pose proof (writes_keep_one Hpre docs Hlen) as Hone.
  destruct (records_for (PStr sa) (PStr sb) (apply_writes sa sb pre docs))
    as [|d [|d' tl]];
    simpl in Hone; try lia; eexists; reflexivity.
Qed.

End AuditFacts.

(** ** The job and the audit collection *)

(** Case analysis on whatever outcome the goal still branches on. *)
Ltac split_paths :=
  repeat (match goal with
          | |- context [match ?x with _ => _ end] =>
              lazymatch type of x with
              | world => fail
              | prod _ _ => fail
              | _ => destruct x
              end
          end; run).

Ltac keyed_tac :=
  split; [reflexivity |
          split; [reflexivity | apply distinct_NoDup; reflexivity]].



Section JobAudit.
Context {L : PyLib}.

(** Transfer and verification never write to the audit collection. *)
Lemma transfer_and_verify_audit (e : env) (config : dict string)
      (name : string) (w : world) :
  audit (snd (transfer_and_verify e config name w)) = audit w.
Proof.
  destruct w as [au oc fr co sp cn]. run. split_paths; reflexivity.
Qed.



End JobAudit.



(** * Further properties *)

(** ** The filter translator, beyond the claims *)

Section TranslatorMore.
Context {L : PyLib}.

Lemma dict_get_Forall2 (f : pyval -> result pyval) :
  forall (d d' : dict pyval),
    map fst d' = map fst d ->
    Forall2 (fun kv kv' => f (snd kv) = Ok (snd kv')) d d' ->
    forall k v, dict_get k d = Some v ->
                exists v', dict_get k d' = Some v' /\ f v = Ok v'.
Proof.
  intros d d' Hkeys Hall. induction Hall as [|[k1 v1] [k2 v2] tl tl' Hv Hrest IH];
    intros k v Hget; simpl in *; [discriminate|].
  inversion Hkeys as [[Hk Htl]]. subst k2.
  destruct (String.eqb k k1).
  - inversion Hget; subst. eauto.
  - now apply IH.
Qed.

Lemma convert_each_raises (f : pyval -> result pyval) :
  forall (pre : list pyval) (x : pyval) (post : list pyval) (e : exc),
    Forall (fun v => exists w, f v = Ok w) pre ->
    f x = Raise e ->
    convert_each f (pre ++ x :: post) = Raise e.
Proof.
  induction pre as [|p pre IH]; intros x post e Hpre Hx; simpl.
  - now rewrite Hx.
  - inversion Hpre as [|y ys [w Hw] Hrest]; subst. rewrite Hw.
    now rewrite IH with (e := e).
Qed.

Lemma convert_items_raises (f : pyval -> result pyval) :
  forall (pre : dict pyval) (k : string) (x : pyval) (post acc : dict pyval)
         (e : exc),
    Forall (fun kv => exists w, f (snd kv) = Ok w) pre ->
    f x = Raise e ->
    convert_items f (pre ++ (k, x) :: post) acc = Raise e.
Proof.
  induction pre as [|[k1 v1] pre IH]; intros k x post acc e Hpre Hx; simpl.
  - now rewrite Hx.
  - inversion Hpre as [|y ys [w Hw] Hrest]; subst. simpl in Hw. rewrite Hw.
    now apply IH.
Qed.

Lemma is_date_object_inv (d : dict pyval) :
  is_date_object d = true -> exists v, d = [("$date", v)].
Proof.
  unfold is_date_object, dict_contains. intros H.
  apply andb_true_iff in H. destruct H as [Hin Hlen].
  destruct d as [|[k v] [|kv tl]]; try discriminate.
  change (dict_get "$date" [(k, v)])
    with (if String.eqb "$date" k then Some v else @None pyval) in Hin.
  destruct (String.eqb "$date" k) eqn:E; [|discriminate].
  apply String.eqb_eq in E. subst k. now exists v.
Qed.

(** What the translator returns holds no [$date] wrapper any more. *)
Lemma convert_clears (v : pyval) :
  well_formed v = true ->
  forall w, convert_extended_json_to_native v = Ok w ->
            has_date_object w = false.
Proof.
  induction v as [| | | | | |l IH|d IH] using pyval_nested_ind;
    intros Hwf w Hrun;
    try (simpl in Hrun; inversion Hrun; subst; reflexivity).
  - rewrite convert_list in Hrun.
    destruct (convert_each convert_extended_json_to_native l) as [vs|e] eqn:Heach;
      [|discriminate].
    inversion Hrun; subst w. clear Hrun.
    apply convert_each_spec in Heach.
    simpl in Hwf. rewrite forallb_forall in Hwf. simpl.
    revert IH Hwf. induction Heach as [|x y xs ys Hxy Hrest IHrest];
      intros IH Hwf; simpl; [reflexivity|].
    inversion IH; subst. apply orb_false_iff. split.
    + apply H1; [apply Hwf; now left | assumption].
    + apply IHrest; [assumption|]. intros z Hz. apply Hwf. now right.
  - rewrite convert_dict in Hrun.
    destruct (is_date_object d) eqn:Hdate.
    + destruct (dict_get "$date" d) as [dt|]; [|discriminate].
      unfold convert_date in Hrun. destruct dt; try discriminate.
      destruct (fromisoformat _); [|discriminate].
      inversion Hrun; subst. reflexivity.
    + simpl in Hwf. apply andb_true_iff in Hwf. destruct Hwf as [Hkeys Hvals].
      apply distinct_NoDup in Hkeys. rewrite forallb_forall in Hvals.
      apply convert_items_spec in Hrun; [|assumption].
      destruct Hrun as [d' [Hw [Hk Hall]]]. simpl in Hw. subst w.
      simpl. rewrite (is_date_object_keys d' d Hk), Hdate. simpl.
      clear Hk Hdate Hkeys.
      revert IH Hvals. induction Hall as [|x y xs ys Hxy Hrest IHrest];
        intros IH Hvals; simpl; [reflexivity|].
      inversion IH; subst. apply orb_false_iff. split.
      * apply H1; [apply Hvals; now left | assumption].
      * apply IHrest; [assumption|]. intros z Hz. apply Hvals. now right.
Qed.
End TranslatorMore.

Lemma endswith_zero_offset_tail (p : string) :
  endswith (p ++ "+00:00") "Z" = false.
Proof.
  unfold endswith. change (String.length "Z") with 1%nat.
  assert (Hlen : forall q, String.length (p ++ q)
                           = (String.length p + String.length q)%nat).
  { induction p as [|c p IH]; intros q; simpl; [reflexivity | now rewrite IH]. }
  rewrite Hlen. change (String.length "+00:00") with 6%nat.
  replace (String.length p + 6 - 1)%nat with (String.length p + 5)%nat by lia.
  assert (Hsub : substring (String.length p + 5) 1 (p ++ "+00:00") = "0").
  { clear Hlen. induction p as [|c p IH]; simpl; [reflexivity | exact IH]. }
  rewrite Hsub. apply andb_false_iff. now right.
Qed.

(** X1. A [$date] object whose payload is not text -- the canonical
    extended form [{"$date": {"$numberLong": ...}}], or a number of
    milliseconds -- is not translated: line 122 raises [AttributeError]. *)
Theorem date_payload_must_be_text (L : PyLib) (v : pyval) :
  (forall s, v <> PStr s) ->
  convert_extended_json_to_native (PDict [("$date", v)])
  = Raise (no_attribute v "endswith").
Proof.
  intros Hv. rewrite convert_dict. unfold is_date_object, dict_contains. simpl.
  destruct v; try reflexivity. exfalso. now apply (Hv s).
Qed.

Lemma date_payload_must_be_text_witness :
  let payload := PDict [("$numberLong", PStr "1518710100176")] in
  (forall s, payload <> PStr s) /\
  convert_extended_json_to_native (L := py310) (PDict [("$date", payload)])
  = Raise (mkexc "AttributeError"
                 "'dict' object has no attribute 'endswith'").
Proof.
  split; [discriminate|].
  apply (@date_payload_must_be_text py310
           (PDict [("$numberLong", PStr "1518710100176")])).
  discriminate.
Defined.

(** X2. The first value that fails to translate fails the whole
    translation with its own exception, in a list and in a dictionary that
    is no [$date] wrapper, whatever follows it. *)
Theorem translation_error_propagates
        (L : PyLib) (x : pyval) (e : exc) (pre post : list pyval)
        (dpre dpost : dict pyval) (k : string) :
  convert_extended_json_to_native x = Raise e ->
  Forall (fun v => exists w, convert_extended_json_to_native v = Ok w) pre ->
  Forall (fun kv => exists w, convert_extended_json_to_native (snd kv) = Ok w)
         dpre ->
  is_date_object (dpre ++ (k, x) :: dpost)%list = false ->
  convert_extended_json_to_native (PList (pre ++ x :: post)) = Raise e
  /\ convert_extended_json_to_native (PDict (dpre ++ (k, x) :: dpost))
     = Raise e.
Proof.
  intros Hx Hpre Hdpre Hdate. split.
  - rewrite convert_list.
    now rewrite convert_each_raises with (e := e).
  - rewrite convert_dict, Hdate. now apply convert_items_raises.
Qed.

Lemma translation_error_propagates_witness :
  let bad := PDict [("$date", PStr "15 Feb 2018")] in
  let e := mkexc "ValueError" "Invalid isoformat string: '15 Feb 2018'" in
  convert_extended_json_to_native (L := py310) bad = Raise e /\
  convert_extended_json_to_native (L := py310)
    (PList ([PInt 1] ++ bad :: [PStr "never reached"])) = Raise e /\
  convert_extended_json_to_native (L := py310)
    (PDict ([("a", PInt 1)] ++ ("fld1", bad) :: [("b", PNone)])) = Raise e.
Proof.
  split; [reflexivity|].
  apply (@translation_error_propagates py310
           (PDict [("$date", PStr "15 Feb 2018")])
           (mkexc "ValueError" "Invalid isoformat string: '15 Feb 2018'")
           [PInt 1] [PStr "never reached"] [("a", PInt 1)] [("b", PNone)]
           "fld1").
  - reflexivity.
  - repeat constructor. now exists (PInt 1).
  - repeat constructor. now exists (PInt 1).
  - reflexivity.
Defined.

(** X3. A dictionary that is no [$date] wrapper translates to a dictionary
    with the same keys in the same order, and under every key it holds the
    translation of the value the input holds there. *)
Theorem translation_keeps_keys (L : PyLib) (d : dict pyval) (w : pyval) :
  well_formed (PDict d) = true ->
  is_date_object d = false ->
  convert_extended_json_to_native (PDict d) = Ok w ->
  exists d',
    w = PDict d' /\ map fst d' = map fst d /\
    forall k v, dict_get k d = Some v ->
                exists v', dict_get k d' = Some v' /\
                           convert_extended_json_to_native v = Ok v'.
Proof.
  intros Hwf Hdate Hrun. rewrite convert_dict, Hdate in Hrun.
  simpl in Hwf. apply andb_true_iff in Hwf. destruct Hwf as [Hkeys _].
  apply distinct_NoDup in Hkeys.
  apply convert_items_spec in Hrun; [|assumption].
  destruct Hrun as [d' [Hw [Hk Hall]]]. exists d'. simpl in Hw.
  split; [assumption|]. split; [assumption|].
  now apply dict_get_Forall2.
Qed.

Lemma translation_keeps_keys_witness :
  let d := [("$date", PStr "2018-02-15T15:55:00.176Z");
            ("fld1", PDict [("$date", PStr "2018-02-15T15:55:00.176Z")])] in
  well_formed (PDict d) = true /\ is_date_object d = false /\
  exists d',
    convert_extended_json_to_native (L := py310) (PDict d) = Ok (PDict d') /\
    map fst d' = ["$date"; "fld1"] /\
    dict_get "$date" d' = Some (PStr "2018-02-15T15:55:00.176Z") /\
    dict_get "fld1" d'
    = Some (PDatetime (mkdt 2018 2 15 15 55 0 176000 (Some 0))).
Proof.
  split; [reflexivity|]. split; [reflexivity|].
  destruct (@translation_keeps_keys py310
              [("$date", PStr "2018-02-15T15:55:00.176Z");
               ("fld1", PDict [("$date", PStr "2018-02-15T15:55:00.176Z")])]
              (PDict [("$date", PStr "2018-02-15T15:55:00.176Z");
                      ("fld1", PDatetime
                                 (mkdt 2018 2 15 15 55 0 176000 (Some 0)))])
              eq_refl eq_refl eq_refl)
    as [d' [Hw [Hkeys _]]].
  exists d'. inversion Hw; subst d'. repeat split; reflexivity.
Defined.

(** X4. A list translates element by element: the result is a list of the
    same length whose i-th element is the translation of the i-th element
    of the input. *)
Theorem translation_of_list_is_elementwise
        (L : PyLib) (l : list pyval) (w : pyval) :
  convert_extended_json_to_native (PList l) = Ok w ->
  exists l',
    w = PList l' /\ List.length l' = List.length l /\
    forall i v, nth_error l i = Some v ->
                exists v', nth_error l' i = Some v' /\
                           convert_extended_json_to_native v = Ok v'.
Proof.
  intros Hrun. rewrite convert_list in Hrun.
  destruct (convert_each convert_extended_json_to_native l) as [vs|e] eqn:Heach;
    [|discriminate].
  inversion Hrun; subst w. exists vs. split; [reflexivity|].
  apply convert_each_spec in Heach. split.
  - symmetry. eapply Forall2_length; eassumption.
  - induction Heach as [|x y xs ys Hxy Hrest IH]; intros i v Hnth.
    + destruct i; discriminate.
    + destruct i as [|i]; simpl in *.
      * inversion Hnth; subst. eauto.
      * now apply IH.
Qed.

Lemma translation_of_list_is_elementwise_witness :
  let l := [PInt 1; PDict [("$date", PStr "2020-01-01")]; PList []] in
  exists l',
    convert_extended_json_to_native (L := py310) (PList l) = Ok (PList l') /\
    List.length l' = 3%nat /\
    nth_error l' 1 = Some (PDatetime (mkdt 2020 1 1 0 0 0 0 None)).
Proof.
  destruct (@translation_of_list_is_elementwise py310
              [PInt 1; PDict [("$date", PStr "2020-01-01")]; PList []]
              (PList [PInt 1; PDatetime (mkdt 2020 1 1 0 0 0 0 None); PList []])
              eq_refl)
    as [l' [Hw _]].
  exists l'. inversion Hw; subst l'. repeat split; reflexivity.
Defined.

(** X5. After a successful translation no [$date] wrapper is left at any
    depth, and every dictionary still has distinct keys. *)
Theorem translation_leaves_no_date_object (L : PyLib) (v w : pyval) :
  well_formed v = true ->
  convert_extended_json_to_native v = Ok w ->
  has_date_object w = false /\ well_formed w = true.
Proof.
  intros Hwf Hrun. split.
  - eapply convert_clears; eassumption.
  - exact (proj1 (convert_stable v Hwf Hrun)).
Qed.

Lemma translation_leaves_no_date_object_witness :
  let v := PDict [("fld1", PDict [("$gt",
                    PDict [("$date", PStr "2018-02-15T15:55:00.176Z")])])] in
  well_formed v = true /\ has_date_object v = true /\
  exists w, convert_extended_json_to_native (L := py310) v = Ok w /\
            has_date_object w = false /\ well_formed w = true.
Proof.
  split; [reflexivity|]. split; [reflexivity|].
  eexists. split; [reflexivity|].
  apply (@translation_leaves_no_date_object py310
           (PDict [("fld1", PDict [("$gt",
              PDict [("$date", PStr "2018-02-15T15:55:00.176Z")])])]));
    reflexivity.
Defined.

(** The test of line 119 accepts exactly the dictionaries with the one item
    ["$date"]: a [$date] key beside other keys is an ordinary key. *)
Lemma date_object_is_the_one_item_dict (d : dict pyval) :
  is_date_object d = true <-> exists v, d = [("$date", v)].
Proof.
  split.
  - apply is_date_object_inv.
  - intros [v ->]. reflexivity.
Qed.

(** X6. Rewriting the zero offset twice is rewriting it once: what
    [zero_offset] returns never ends in [Z]. *)
Theorem zero_offset_idempotent (s : string) :
  endswith (zero_offset s) "Z" = false
  /\ zero_offset (zero_offset s) = zero_offset s.
Proof.
  assert (H : endswith (zero_offset s) "Z" = false).
  { unfold zero_offset. destruct (endswith s "Z") eqn:E; [|exact E].
    apply endswith_zero_offset_tail. }
  split; [exact H|]. unfold zero_offset at 1. now rewrite H.
Qed.

(** ** The job, beyond the claims *)

(** Runs the job to the end of every path, the audit writes included. *)
Ltac explore :=
  repeat (first [ progress log_step; unfold log_world
                | match goal with
                  | |- context [match ?x with _ => _ end] =>
                      lazymatch type of x with
                      | world => fail
                      | prod _ _ => fail
                      | _ => destruct x eqn:?
                      end
                  end ]; run).

(** X7. A job whose configuration has a [name] never raises: on every path
    it returns a result for [source_db.name] that is either [completed]
    with a verification outcome and no error, or [failed] with an error
    text and no verification outcome. *)
Theorem job_returns_a_terminal_result
        (L : PyLib) (e : env) (config : dict string) (name : string)
        (w : world) :
  dict_get "name" config = Some name ->
  exists r,
    fst (migrate_collection e config w) = Ok r
    /\ collection r = collection_id config name
    /\ ((status r = "completed" /\ error r = None /\
         (verification r = Some "success" \/
          verification r = Some "count_mismatch"))
        \/ (status r = "failed" /\ verification r = None /\
            exists m, error r = Some m)).
Proof.
  intros Hname. destruct w as [au oc fr co sp cn].
  run. rewrite Hname. run. explore.
  all: eexists; split; [reflexivity|]; split; [reflexivity|];
    first [ left; split; [reflexivity|]; split; [reflexivity|];
            first [left; reflexivity | right; reflexivity]
          | right; split; [reflexivity|]; split; [reflexivity|];
            eexists; reflexivity ].
Qed.

Lemma job_returns_a_terminal_result_witness :
  dict_get "name" job_bad_query = Some "dk4" /\
  exists r,
    fst (migrate_collection (L := py310) source_down_for_count job_bad_query
           empty_world) = Ok r
    /\ collection r = "test.dk4"
    /\ ((status r = "completed" /\ error r = None /\
         (verification r = Some "success" \/
          verification r = Some "count_mismatch"))
        \/ (status r = "failed" /\ verification r = None /\
            exists m, error r = Some m)).
Proof.
  split; [reflexivity|].
  apply (@job_returns_a_terminal_result py310 source_down_for_count
           job_bad_query "dk4" empty_world).
  reflexivity.
Defined.

(** X8. A configuration without [name] makes the job raise [KeyError] at
    line 164, before any connection, write, process or output. *)
Theorem job_without_name_raises
        (L : PyLib) (e : env) (config : dict string) (w : world) :
  dict_get "name" config = None ->
  migrate_collection e config w = (Raise (mkexc "KeyError" "'name'"), w).
Proof.
  intros Hname. destruct w as [au oc fr co sp cn].
  run. rewrite Hname. run. reflexivity.
Qed.

Lemma job_without_name_raises_witness :
  dict_get "name" job_nameless = None /\
  migrate_collection (L := py310) (calm 7 7) job_nameless empty_world
  = (Raise (mkexc "KeyError" "'name'"), empty_world).
Proof.
  split; [reflexivity|].
  apply (@job_without_name_raises py310 (calm 7 7) job_nameless empty_world).
  reflexivity.
Defined.

(** X9. When a process cannot be started the job returns [failed] with
    the text of the exception [Popen] raised: nothing is started when it is
    the extractor, the extractor alone when it is the loader. *)
Theorem spawn_failure_fails_the_job
        (L : PyLib) (e : env) (config : dict string) (name : string)
        (w : world) (ex : exc) :
  dict_get "name" config = Some name ->
  log_connect e = Connected ->
  dump_spawn e = Some ex \/ (dump_spawn e = None /\ restore_spawn e = Some ex) ->
  fst (migrate_collection e config w)
  = Ok (mkresult "failed" (collection_id config name) None (Some (exc_str ex)))
  /\ spawned (snd (migrate_collection e config w))
     = (spawned w ++ match dump_spawn e with
                     | Some _ => []
                     | None => [dump_cmd config name]
                     end)%list.
Proof.
  intros Hname Hconn Hspawn. destruct w as [au oc fr co sp cn].
  run. rewrite Hname. run. rewrite Hconn. run. log_step. unfold log_world.
  destruct Hspawn as [Hd | [Hd Hr]].
  - rewrite Hd. destruct (running_write e); run; log_step; unfold log_world;
      destruct (final_write e); run; rewrite app_nil_r; split; reflexivity.
  - rewrite Hd, Hr. destruct (running_write e); run; log_step;
      unfold log_world; destruct (final_write e); run; split; reflexivity.
Qed.

Lemma spawn_failure_fails_the_job_witness :
  dict_get "name" job_dk4 = Some "dk4" /\
  (dump_spawn restore_missing = None /\
   restore_spawn restore_missing
   = Some (mkexc "FileNotFoundError"
                 "[Errno 2] No such file or directory: 'mongorestore'")) /\
  fst (migrate_collection (L := py310) restore_missing job_dk4 empty_world)
  = Ok (mkresult "failed" "test.dk4" None
          (Some "[Errno 2] No such file or directory: 'mongorestore'"))
  /\ spawned (snd (migrate_collection (L := py310) restore_missing job_dk4
                     empty_world))
     = [dump_cmd job_dk4 "dk4"].
Proof.
  split; [reflexivity|]. split; [split; reflexivity|].
  apply (@spawn_failure_fails_the_job py310 restore_missing job_dk4 "dk4"
           empty_world
           (mkexc "FileNotFoundError"
                  "[Errno 2] No such file or directory: 'mongorestore'"));
    try reflexivity.
  right. split; reflexivity.
Defined.

(** X10. Verification needs a transfer that went through: when a process
    cannot be started or exits with a non-zero code, the job opens no
    verification client and counts nothing. *)
Theorem no_verification_without_transfer
        (L : PyLib) (e : env) (config : dict string) (name : string)
        (w : world) :
  dict_get "name" config = Some name ->
  log_connect e = Connected ->
  ~ transfer_ok e ->
  counted (snd (migrate_collection e config w)) = counted w
  /\ fresh (snd (migrate_collection e config w)) = S (fresh w).
Proof.
  intros Hname Hconn Hbad. destruct w as [au oc fr co sp cn].
  run. rewrite Hname. run. rewrite Hconn. run. log_step. unfold log_world.
  destruct (running_write e); run.
  all: destruct (dump_spawn e) eqn:Hd; run;
    [log_step; unfold log_world; destruct (final_write e); run;
     split; reflexivity|].
  all: destruct (restore_spawn e) eqn:Hr; run;
    [log_step; unfold log_world; destruct (final_write e); run;
     split; reflexivity|].
  all: destruct (restore_returncode e =? 0) eqn:Hrc; run;
    [|log_step; unfold log_world; destruct (final_write e); run;
      split; reflexivity].
  all: destruct (dump_returncode e =? 0) eqn:Hdc; run;
    [|log_step; unfold log_world; destruct (final_write e); run;
      split; reflexivity].
  all: exfalso; apply Hbad; apply Z.eqb_eq in Hrc, Hdc; repeat split;
    assumption.
Qed.

Lemma no_verification_without_transfer_witness :
  dict_get "name" job_dk4 = Some "dk4" /\
  ~ transfer_ok dump_fails /\
  counted (snd (migrate_collection (L := py310) dump_fails job_dk4 empty_world))
  = [] /\
  fresh (snd (migrate_collection (L := py310) dump_fails job_dk4 empty_world))
  = 1%nat.
Proof.
  assert (Hbad : ~ transfer_ok dump_fails).
  { intros [_ [_ [_ H]]]. discriminate. }
  split; [reflexivity|]. split; [exact Hbad|].
  exact (@no_verification_without_transfer py310 dump_fails job_dk4 "dk4"
           empty_world eq_refl eq_refl Hbad).
Defined.

(** X11. The filter is parsed and translated only after the transfer: a
    job whose filter cannot be read or translated has by then run both
    processes, and returns [failed] with the text of that exception without
    counting anything. *)
Theorem bad_filter_fails_after_the_transfer
        (L : PyLib) (e : env) (config : dict string) (name : string)
        (w : world) (ex : exc) :
  dict_get "name" config = Some name ->
  log_connect e = Connected ->
  transfer_ok e ->
  (forall x, source_connect e <> OtherError x) ->
  (forall x, target_connect e <> OtherError x) ->
  query_filter_for_count config = Raise ex ->
  fst (migrate_collection e config w)
  = Ok (mkresult "failed" (collection_id config name) None (Some (exc_str ex)))
  /\ spawned (snd (migrate_collection e config w))
     = (spawned w ++ [dump_cmd config name; restore_cmd config name])%list
  /\ counted (snd (migrate_collection e config w)) = counted w.
Proof.
  intros Hname Hconn [Hd [Hr [Hrc Hdc]]] Hsrc Htgt Hflt.
  destruct w as [au oc fr co sp cn].
  run. rewrite Hname. run. rewrite Hconn. run. log_step. unfold log_world.
  rewrite Hd, Hr, Hrc, Hdc. change (0 =? 0) with true.
  destruct (running_write e); run.
  all: destruct (source_connect e) as [|m1|x1]; [| |now destruct (Hsrc x1)];
    destruct (target_connect e) as [|m2|x2]; try now destruct (Htgt x2).
  all: run; rewrite Hflt; run; log_step; unfold log_world;
    destruct (final_write e); run; rewrite <- app_assoc;
    repeat split; reflexivity.
Qed.

Lemma bad_filter_fails_after_the_transfer_witness :
  dict_get "name" job_bad_query = Some "dk4" /\
  transfer_ok (calm 7 7) /\
  query_filter_for_count (L := py310) job_bad_query
  = Raise (mkexc "JSONDecodeError" "Expecting value: line 1 column 1 (char 0)")
  /\
  fst (migrate_collection (L := py310) (calm 7 7) job_bad_query empty_world)
  = Ok (mkresult "failed" "test.dk4" None
          (Some "Expecting value: line 1 column 1 (char 0)"))
  /\ spawned (snd (migrate_collection (L := py310) (calm 7 7) job_bad_query
                     empty_world))
     = [dump_cmd job_bad_query "dk4"; restore_cmd job_bad_query "dk4"]
  /\ counted (snd (migrate_collection (L := py310) (calm 7 7) job_bad_query
                     empty_world)) = [].
Proof.
  assert (Hok : transfer_ok (calm 7 7)) by (repeat split; reflexivity).
  split; [reflexivity|]. split; [exact Hok|]. split; [reflexivity|].
  apply (@bad_filter_fails_after_the_transfer py310 (calm 7 7) job_bad_query
           "dk4" empty_world
           (mkexc "JSONDecodeError"
                  "Expecting value: line 1 column 1 (char 0)"));
    try reflexivity; try exact Hok; intros x; discriminate.
Defined.

(** Finds a printed line in a console that was built by appending. *)
Ltac find_line :=
  match goal with
  | |- In ?x (_ ++ [?x]) => apply in_or_app; right; left; reflexivity
  | |- In _ (_ ++ _) => apply in_or_app; left; find_line
  end.

(** X12. When the source store cannot be reached for the count,
    [get_db_connection] reports it and returns [None], and the job fails on
    the subscript of line 230: the error it returns is the text of that
    [TypeError], not the connection failure, and nothing is counted. *)
Theorem unreachable_source_fails_as_type_error
        (L : PyLib) (e : env) (config : dict string) (name : string)
        (w : world) (msg : string) (flt : pyval) :
  dict_get "name" config = Some name ->
  log_connect e = Connected ->
  transfer_ok e ->
  source_connect e = ConnectionFailure msg ->
  (forall x, target_connect e <> OtherError x) ->
  query_filter_for_count config = Ok flt ->
  fst (migrate_collection e config w)
  = Ok (mkresult "failed" (collection_id config name) None
          (Some "'NoneType' object is not subscriptable"))
  /\ In ("Error: Could not connect to MongoDB at " ++ SOURCE_MONGO_URI ++ ". "
         ++ msg)
        (console (snd (migrate_collection e config w)))
  /\ counted (snd (migrate_collection e config w)) = counted w.
Proof.
  intros Hname Hconn [Hd [Hr [Hrc Hdc]]] Hsrc Htgt Hflt.
  destruct w as [au oc fr co sp cn].
  run. rewrite Hname. run. rewrite Hconn. run. log_step. unfold log_world.
  rewrite Hd, Hr, Hrc, Hdc, Hsrc. change (0 =? 0) with true.
  destruct (running_write e); run.
  all: destruct (target_connect e) as [|m2|x2]; try now destruct (Htgt x2).
  all: run; rewrite Hflt; run; log_step; unfold log_world;
    destruct (final_write e); run;
    (split; [reflexivity | split; [|reflexivity]]); find_line.
Qed.

Lemma unreachable_source_fails_as_type_error_witness :
  dict_get "name" job_dk4 = Some "dk4" /\
  transfer_ok source_down_for_count /\
  source_connect source_down_for_count
  = ConnectionFailure "localhost:30000: [Errno 111] Connection refused" /\
  fst (migrate_collection (L := py310) source_down_for_count job_dk4
         empty_world)
  = Ok (mkresult "failed" "test.dk4" None
          (Some "'NoneType' object is not subscriptable")).
Proof.
  assert (Hok : transfer_ok source_down_for_count)
    by (repeat split; reflexivity).
  split; [reflexivity|]. split; [exact Hok|]. split; [reflexivity|].
  refine (proj1 (@unreachable_source_fails_as_type_error py310
                   source_down_for_count job_dk4 "dk4" empty_world
                   "localhost:30000: [Errno 111] Connection refused"
                   (PDict []) eq_refl eq_refl Hok eq_refl _ eq_refl)).
  intros x. discriminate.
Defined.

(** ** Client connections *)

Lemma close_keeps_older (x : client) (l : list client) (bound : nat) :
  (forall c, In c l -> (client_id c < bound)%nat) ->
  (bound <= client_id x)%nat ->
  filter (fun c' => negb (client_eqb x c')) l = l.
Proof.
  intros Hold Hx. induction l as [|c tl IH]; simpl; [reflexivity|].
  assert (Hc : (client_id c < bound)%nat) by (apply Hold; now left).
  unfold client_eqb at 1.
  replace (Nat.eqb (client_id x) (client_id c)) with false
    by (symmetry; apply Nat.eqb_neq; lia).
  simpl. f_equal. apply IH. intros c' Hin. apply Hold. now right.
Qed.

Lemma close_keeps_older_if (x : client) (l : list client) (bound : nat) :
  (forall c, In c l -> (client_id c < bound)%nat) ->
  (bound <= client_id x)%nat ->
  filter (fun c' => if client_eqb x c' then false else true) l = l.
Proof. apply close_keeps_older. Qed.

Lemma close_keeps_other (x c : client) (l : list client) :
  In c l -> client_id c <> client_id x ->
  In c (filter (fun c' => negb (client_eqb x c')) l).
Proof.
  intros Hin Hne. apply filter_In. split; [assumption|].
  unfold client_eqb. apply negb_true_iff. apply Nat.eqb_neq. congruence.
Qed.

(** X13. When transfer and verification go through, the job closes the
    three clients it opened: the clients that were open before are the
    clients that are open after. *)
Theorem completed_job_closes_its_clients
        (L : PyLib) (e : env) (config : dict string) (name : string)
        (w : world) :
  dict_get "name" config = Some name ->
  log_connect e = Connected ->
  transfer_ok e ->
  verification_ok e config name ->
  clients_known w ->
  open_clients (snd (migrate_collection e config w)) = open_clients w
  /\ fresh (snd (migrate_collection e config w)) = (fresh w + 3)%nat.
Proof.
  intros Hname Hconn [Hd [Hr [Hrc Hdc]]]
         [Hsrc [Htgt [flt [sn [tn [Hflt [Hsn Htn]]]]]]] Hknown.
  destruct w as [au oc fr co sp cn]. unfold clients_known in Hknown.
  simpl in Hknown.
  run. rewrite Hname. run. rewrite Hconn. run. log_step. unfold log_world.
  rewrite Hd, Hr, Hrc, Hdc, Hsrc, Htgt. change (0 =? 0) with true.
  destruct (running_write e); run.
  all: rewrite Hflt; run; rewrite Hsn; run; rewrite Htn; run.
  all: destruct (sn =? tn); run; log_step; unfold log_world;
    destruct (final_write e); run.
  all: split; [|lia].
  all: rewrite !filter_app;
    rewrite !(close_keeps_older_if _ oc Hknown) by (simpl; lia);
    repeat (progress (cbn [filter app]; unfold client_eqb; cbn [client_id];
                      rewrite ?Nat.eqb_refl;
                      repeat match goal with
                             | |- context [Nat.eqb ?a ?b] =>
                                 replace (Nat.eqb a b) with false
                                   by (symmetry; apply Nat.eqb_neq; lia)
                             end));
    now rewrite ?app_nil_r.
Qed.

Lemma completed_job_closes_its_clients_witness :
  dict_get "name" job_dk1 = Some "dk1" /\
  transfer_ok (calm 3 7) /\
  verification_ok (L := py310) (calm 3 7) job_dk1 "dk1" /\
  clients_known empty_world /\
  open_clients (snd (migrate_collection (L := py310) (calm 3 7) job_dk1
                       empty_world)) = []
  /\ fresh (snd (migrate_collection (L := py310) (calm 3 7) job_dk1
                   empty_world)) = 3%nat.
Proof.
  assert (Hok : transfer_ok (calm 3 7)) by (repeat split; reflexivity).
  assert (Hver : verification_ok (L := py310) (calm 3 7) job_dk1 "dk1").
  { split; [reflexivity|]. split; [reflexivity|].
    eexists. exists 3, 7. repeat split; reflexivity. }
  assert (Hknown : clients_known empty_world) by (intros c []).
  split; [reflexivity|]. split; [exact Hok|]. split; [exact Hver|].
  split; [exact Hknown|].
  exact (@completed_job_closes_its_clients py310 (calm 3 7) job_dk1 "dk1"
           empty_world eq_refl eq_refl Hok Hver Hknown).
Defined.

(** X14. A job leaves the clients of others alone: whatever happens, every
    client that was open before the job is open after it, and the world
    still knows every open client. *)
Theorem job_keeps_foreign_clients
        (L : PyLib) (e : env) (config : dict string) (w : world) :
  clients_known w ->
  clients_known (snd (migrate_collection e config w))
  /\ forall c, In c (open_clients w) ->
               In c (open_clients (snd (migrate_collection e config w))).
Proof.
  intros Hknown. destruct w as [au oc fr co sp cn].
  unfold clients_known in *. simpl in Hknown.
  run. destruct (dict_get "name" config) as [name|]; run.
  2: { split; [exact Hknown | auto]. }
  explore.
  all: split;
    [ intros c Hin;
      repeat (apply filter_In in Hin; destruct Hin as [Hin _]);
      repeat (apply in_app_or in Hin; destruct Hin as [Hin|Hin]);
      first [ apply Hknown in Hin; lia
            | destruct Hin as [<-|[]]; simpl; lia ]
    | intros c Hin; pose proof (Hknown c Hin);
      repeat (apply close_keeps_other; [|simpl; lia]);
      repeat (apply in_or_app; left); exact Hin ].
Qed.

Lemma job_keeps_foreign_clients_witness :
  let w := mkworld [] [mkclient 0 "mongodb://elsewhere"] 1 [] [] [] in
  clients_known w /\
  In (mkclient 0 "mongodb://elsewhere")
     (open_clients (snd (migrate_collection (L := py310) source_count_fails
                           job_dk4 w))).
Proof.
  assert (Hknown : clients_known
                     (mkworld [] [mkclient 0 "mongodb://elsewhere"] 1 [] [] [])).
  { intros c [<-|[]]. simpl. lia. }
  split; [exact Hknown|].
  apply (proj2 (@job_keeps_foreign_clients py310 source_count_fails job_dk4
                  (mkworld [] [mkclient 0 "mongodb://elsewhere"] 1 [] [] [])
                  Hknown)).
  now left.
Defined.

(** ** The audit record, beyond the claims *)

(** Closes the facts about a run whose acknowledged writes are [lds], the
    last of them being [ld] after [pre]. *)
Ltac writes_facts lds pre ld :=
  exists lds; eexists;
  split; [reflexivity|];
  split; [repeat (apply Forall_cons; [keyed_tac|]); apply Forall_nil|];
  split; [reflexivity|];
  split;
  [ let Hc := fresh "Hc" in
    let Hf := fresh "Hf" in
    intros Hc Hf;
    first [ discriminate Hc | discriminate Hf
          | exists pre, ld;
            split; [reflexivity|]; split; [reflexivity|];
            split;
            (let Heq := fresh "Heq" in
             intros ? Heq; simpl in Heq;
             first [discriminate Heq | inversion Heq; reflexivity]) ]
  | split; simpl;
    let Hs := fresh "Hs" in
    intros Hs;
    first [ discriminate Hs
          | repeat (apply Forall_cons; [repeat split; reflexivity|]);
            apply Forall_nil ] ].

Section JobWrites.
Context {L : PyLib}.

(** Every acknowledged write of a run, with what the last one records and
    what none of them touches. *)
Lemma migrate_writes (e : env) (config : dict string) (name : string)
      (w : world) :
  dict_get "name" config = Some name ->
  exists lds r,
    audit (snd (migrate_collection e config w))
    = apply_writes (source_db_name config) name lds (audit w)
    /\ Forall (keyed (source_db_name config) name) lds
    /\ fst (migrate_collection e config w) = Ok r
    /\ (log_connect e = Connected -> final_write e = None ->
        exists pre ld,
          lds = (pre ++ [ld])%list /\
          dict_get "status" ld = Some (PStr (status r)) /\
          (forall m, error r = Some m ->
                     dict_get "error_message" ld = Some (PStr m)) /\
          (forall v, verification r = Some v ->
                     dict_get "verification" ld = Some (PStr v)))
    /\ (status r = "failed" ->
        Forall (fun ld => dict_get "verification" ld = None /\
                          dict_get "source_count" ld = None /\
                          dict_get "target_count" ld = None) lds)
    /\ (status r = "completed" ->
        Forall (fun ld => dict_get "error_message" ld = None) lds).
Proof.
  intros Hname. destruct w as [au oc fr co sp cn].
  run_outer. rewrite Hname. run_outer.
  destruct (log_connect e) eqn:Hc; run_outer.
  2,3: writes_facts (@nil (dict pyval)) (@nil (dict pyval)) (@nil (string * pyval)).
  log_step. unfold log_world. destruct (running_write e); run_outer.
  all: match goal with
       | |- context [transfer_and_verify ?e' ?c' ?n' ?w1] =>
           pose proof (transfer_and_verify_audit e' c' n' w1) as Hframe;
           destruct (transfer_and_verify e' c' n' w1)
             as [[[[[[sc tc] sn] tn] vs]|ex] [au2 oc2 fr2 co2 sp2 cn2]]
       end; simpl in Hframe; subst au2; run_outer; log_step;
    unfold log_world; destruct (final_write e); try destruct sc;
    try destruct tc; run_outer.
  all: match goal with
       | |- exists lds r,
           update_one_upsert _ ?l2 (update_one_upsert _ ?l1 _) = _ /\ _ =>
           writes_facts [l1; l2] [l1] l2
       | |- exists lds r, update_one_upsert _ ?l1 _ = _ /\ _ =>
           writes_facts [l1] (@nil (dict pyval)) l1
       | |- _ =>
           writes_facts (@nil (dict pyval)) (@nil (dict pyval))
                        (@nil (string * pyval))
       end.
Qed.
End JobWrites.

Section AuditMore.
Variables sa sb : string.

End AuditMore.

(** X15. The audit record agrees with what the job returns: when the audit
    connection opens and the final-status write is acknowledged, the one
    record of the job's key carries the returned status, the returned error
    text as [error_message] when there is one, and the returned
    verification outcome as [verification] when there is one. *)
Theorem audit_record_agrees_with_result
        (L : PyLib) (e : env) (config : dict string) (name : string)
        (w : world) :
  dict_get "name" config = Some name ->
  log_connect e = Connected ->
  final_write e = None ->
  (List.length (records_for (PStr (source_db_name config)) (PStr name)
                            (audit w)) <= 1)%nat ->
  exists doc r,
    fst (migrate_collection e config w) = Ok r
    /\ records_for (PStr (source_db_name config)) (PStr name)
         (audit (snd (migrate_collection e config w))) = [doc]
    /\ dict_get "status" doc = Some (PStr (status r))
    /\ (forall m, error r = Some m ->
                  dict_get "error_message" doc = Some (PStr m))
    /\ (forall v, verification r = Some v ->
                  dict_get "verification" doc = Some (PStr v)).
Proof.
  intros Hname Hconn Hfinal Hlen.
  destruct (migrate_writes e config w Hname)
    as [lds [r [Haudit [Hkeyed [Hr [Hlast _]]]]]].
  destruct (Hlast Hconn Hfinal) as [pre [ld [Hlds [Hstatus [Herr Hver]]]]].
  subst lds.
  destruct (last_write_record pre ld _ Hkeyed Hlen) as [d0 Hdoc].
  apply Forall_app in Hkeyed. destruct Hkeyed as [_ Hld].
  inversion Hld as [|x xs [_ [_ Hnd]] _]; subst.
  exists (dict_update d0 ld), r. rewrite Haudit, Hdoc.
  split; [assumption|]. split; [reflexivity|].
  split; [|split].
  - rewrite dict_get_update by assumption. now rewrite Hstatus.
  - intros m Hm. rewrite dict_get_update by assumption. now rewrite (Herr m Hm).
  - intros v Hv. rewrite dict_get_update by assumption. now rewrite (Hver v Hv).
Qed.

Lemma audit_record_agrees_with_result_witness :
  dict_get "name" job_dk4 = Some "dk4" /\
  log_connect dump_fails = Connected /\
  final_write dump_fails = None /\
  exists doc r,
    fst (migrate_collection (L := py310) dump_fails job_dk4 empty_world) = Ok r
    /\ records_for (PStr (source_db_name job_dk4)) (PStr "dk4")
         (audit (snd (migrate_collection (L := py310) dump_fails job_dk4
                        empty_world))) = [doc]
    /\ dict_get "status" doc = Some (PStr (status r))
    /\ (forall m, error r = Some m ->
                  dict_get "error_message" doc = Some (PStr m))
    /\ (forall v, verification r = Some v ->
                  dict_get "verification" doc = Some (PStr v)).
Proof.
  split; [reflexivity|]. split; [reflexivity|]. split; [reflexivity|].
  apply (@audit_record_agrees_with_result py310 dump_fails job_dk4 "dk4"
           empty_world); try reflexivity.
  simpl. lia.
Defined.



(** X17. [update_migration_log] returns normally whatever the store
    answers, as long as [log_data] has both key fields: an acknowledged
    write is the upsert under that key and prints nothing, a refused one
    leaves the audit collection alone and prints one line.  When
    [source_db] is missing, the [KeyError] of line 152 is caught and raised
    again by the f-string of line 157, and leaves the function. *)
Theorem update_migration_log_and_the_key
        (L : PyLib) (o : option exc) (lc : collection_handle)
        (ld : dict pyval) (w : world) :
  (forall a b,
      dict_get "source_db" ld = Some a ->
      dict_get "source_collection" ld = Some b ->
      fst (update_migration_log o lc ld w) = Ok tt
      /\ (o = None ->
          audit (snd (update_migration_log o lc ld w))
          = update_one_upsert (key_filter a b) ld (audit w)
          /\ console (snd (update_migration_log o lc ld w)) = console w)
      /\ (forall ex, o = Some ex ->
          audit (snd (update_migration_log o lc ld w)) = audit w
          /\ console (snd (update_migration_log o lc ld w))
             = List.app (console w)
                 ["Error updating migration log for " ++ format_value a
                  ++ "." ++ format_value b ++ ": " ++ exc_str ex]))
  /\ (dict_get "source_db" ld = None ->
      update_migration_log o lc ld w
      = (Raise (mkexc "KeyError" "'source_db'"), w)).
Proof.
  split.
  - intros a b Ha Hb. rewrite (@update_migration_log_run L o lc ld a b w Ha Hb).
    unfold log_world. split; [reflexivity|]. split.
    + intros ->. split; reflexivity.
    + intros ex ->. split; reflexivity.
  - intros Ha.
    unfold update_migration_log, try_except, bind, subscript, raise.
    rewrite Ha. reflexivity.
Qed.

Lemma update_migration_log_and_the_key_witness :
  let ld := [("source_db", PStr "test"); ("source_collection", PStr "dk4");
             ("status", PStr "running")] in
  let lc := mkcoll (mkclient 0 TARGET_MONGO_URI) TARGET_DB LOG_COLLECTION_NAME in
  fst (update_migration_log (L := py310) (Some refused) lc ld empty_world)
  = Ok tt
  /\ console (snd (update_migration_log (L := py310) (Some refused) lc ld
                     empty_world))
     = ["Error updating migration log for test.dk4: not authorized"]
  /\ update_migration_log (L := py310) None lc [("status", PStr "running")]
       empty_world
     = (Raise (mkexc "KeyError" "'source_db'"), empty_world).
Proof.
  intros ld lc.
  destruct (@update_migration_log_and_the_key py310 (Some refused) lc ld
              empty_world) as [Hkey _].
  destruct (Hkey (PStr "test") (PStr "dk4") eq_refl eq_refl)
    as [Hfst [_ Hrefused]].
  destruct (Hrefused refused eq_refl) as [_ Hconsole].
  split; [exact Hfst|]. split; [exact Hconsole|].
  apply (proj2 (@update_migration_log_and_the_key py310 None lc
                  [("status", PStr "running")] empty_world)).
  reflexivity.
Defined.

(** Finds one of the two traced command lines in a console. *)
Ltac find_traced :=
  match goal with
  | |- In ?x (_ ++ (?x :: _) ++ _) =>
      apply in_or_app; right; apply in_or_app; left; left; reflexivity
  | |- In ?x (_ ++ (_ :: ?x :: _) ++ _) =>
      apply in_or_app; right; apply in_or_app; left; right; left; reflexivity
  | |- In _ (_ ++ _) => apply in_or_app; left; find_traced
  end.

(** The transfer starts by tracing its two command lines. *)
Lemma transfer_and_verify_console
      (L : PyLib) (e : env) (config : dict string) (name : string) (w : world) :
  exists rest,
    console (snd (transfer_and_verify e config name w))
    = (console w
       ++ [("  [DEBUG] mongodump command: "
            ++ shlex_join (dump_cmd config name))%string;
           ("  [DEBUG] mongorestore command: "
            ++ shlex_join (restore_cmd config name))%string]
       ++ rest)%list.
Proof.
  destruct w as [au oc fr co sp cn]. run. split_paths.
  all: eexists; repeat rewrite <- app_assoc; simpl; reflexivity.
Qed.

(** X18. With DEBUG_MODE on, as line 13 sets it, every job that gets past
    its initial logging prints both connection strings, credentials
    included, in the command lines it traces. *)
Theorem debug_trace_shows_the_connection_strings
        (L : PyLib) (e : env) (config : dict string) (name : string)
        (w : world) :
  dict_get "name" config = Some name ->
  log_connect e = Connected ->
  exists dump_line restore_line,
    In dump_line (console (snd (migrate_collection e config w)))
    /\ In restore_line (console (snd (migrate_collection e config w)))
    /\ mentions SOURCE_MONGO_URI dump_line = true
    /\ mentions TARGET_MONGO_URI restore_line = true.
Proof.
  intros Hname Hconn.
  exists ("  [DEBUG] mongodump command: " ++ shlex_join (dump_cmd config name)),
         ("  [DEBUG] mongorestore command: "
          ++ shlex_join (restore_cmd config name)).
  split; [|split; [|split; vm_compute; reflexivity]].
  all: destruct w as [au oc fr co sp cn];
    run_outer; rewrite Hname; run_outer; rewrite Hconn; run_outer; log_step;
    unfold log_world; destruct (running_write e); run_outer;
    match goal with
    | |- context [transfer_and_verify ?e' ?c' ?n' ?w1] =>
        destruct (transfer_and_verify_console L e' c' n' w1) as [rest Hrest];
        destruct (transfer_and_verify e' c' n' w1)
          as [[[[[[sc tc] sn] tn] vs]|ex] [au2 oc2 fr2 co2 sp2 cn2]]
    end; cbv beta iota delta [snd console] in Hrest; subst co2; run_outer;
    log_step; unfold log_world; destruct (final_write e); try destruct sc;
    try destruct tc; run_outer; find_traced.
Qed.

Lemma debug_trace_shows_the_connection_strings_witness :
  dict_get "name" job_dk4 = Some "dk4" /\
  log_connect dump_fails = Connected /\
  exists dump_line restore_line,
    In dump_line
       (console (snd (migrate_collection (L := py310) dump_fails job_dk4
                        empty_world)))
    /\ In restore_line
          (console (snd (migrate_collection (L := py310) dump_fails job_dk4
                           empty_world)))
    /\ mentions SOURCE_MONGO_URI dump_line = true
    /\ mentions TARGET_MONGO_URI restore_line = true.
Proof.
  split; [reflexivity|]. split; [reflexivity|].
  exact (@debug_trace_shows_the_connection_strings py310 dump_fails job_dk4
           "dk4" empty_world eq_refl eq_refl).
Defined.

(** What transfer and verification return depends on the world they start
    in through the identifiers of the clients only. *)
Lemma transfer_and_verify_result
      (L : PyLib) (e : env) (config : dict string) (name : string)
      (w1 w2 : world) :
  fresh w1 = fresh w2 ->
  fst (transfer_and_verify e config name w1)
  = fst (transfer_and_verify e config name w2).
Proof.
  destruct w1 as [au1 oc1 fr1 co1 sp1 cn1], w2 as [au2 oc2 fr2 co2 sp2 cn2].
  simpl. intros ->. run. split_paths; reflexivity.
Qed.

Lemma transfer_and_verify_writes
      (L : PyLib) (running final : option exc) (e : env)
      (config : dict string) (name : string) :
  transfer_and_verify (with_writes running final e) config name
  = transfer_and_verify e config name.
Proof. reflexivity. Qed.

(** X19. What a job returns never depends on the answers to its audit
    writes: with the same connections, processes and counts, the result is
    the same whether the [running] write and the final-status write are
    acknowledged or refused. *)
Theorem audit_writes_never_change_the_result
        (L : PyLib) (e : env) (config : dict string) (w : world)
        (running final running' final' : option exc) :
  fst (migrate_collection (with_writes running final e) config w)
  = fst (migrate_collection (with_writes running' final' e) config w).
Proof.
  destruct w as [au oc fr co sp cn].
  run_outer. destruct (dict_get "name" config) as [name|]; run_outer;
    [|reflexivity].
  rewrite !transfer_and_verify_writes.
  cbn [with_writes log_connect running_write final_write utcnow_start
       utcnow_end utcnow_end'].
  destruct (log_connect e); run_outer; try reflexivity.
  repeat log_step. unfold log_world. destruct running, running'; run_outer.
  all: match goal with
       | |- ?lhs = ?rhs =>
           match lhs with
           | context [transfer_and_verify ?e0 ?c0 ?n0 ?wa] =>
               match rhs with
               | context [transfer_and_verify _ _ _ ?wb] =>
                   pose proof (transfer_and_verify_result L e0 c0 n0 wa wb
                                                          eq_refl) as Hsame;
                   destruct (transfer_and_verify e0 c0 n0 wa)
                     as [[[[[[sc tc] sn] tn] vs]|ex] [au1 oc1 fr1 co1 sp1 cn1]];
                   try (destruct (transfer_and_verify e0 c0 n0 wb)
                         as [[[[[[sc' tc'] sn'] tn'] vs']|ex']
                               [au2 oc2 fr2 co2 sp2 cn2]])
               end
           end
       end.
  all: simpl in Hsame; try discriminate Hsame; inversion Hsame; subst.
  all: run_outer; repeat log_step; unfold log_world.
  all: destruct final, final';
    repeat match goal with
           | c : option client |- _ => destruct c
           end;
    run_outer; reflexivity.
Qed.

(** ** The collection loop and the summary *)

Section MainFacts.
Context {L : PyLib} {F : PyFormat}.

Lemma with_console_nil (w : world) : with_console [] w = w.
Proof. destruct w. unfold with_console. simpl. now rewrite app_nil_r. Qed.

Lemma with_console_app (l1 l2 : list string) (w : world) :
  with_console l2 (with_console l1 w) = with_console (l1 ++ l2) w.
Proof. destruct w. unfold with_console. simpl. now rewrite app_assoc. Qed.

Lemma print_run (line : string) (w : world) :
  print line w = (Ok tt, with_console [line] w).
Proof. reflexivity. Qed.

Lemma print_each_run (lines : list string) (w : world) :
  print_each lines w = (Ok tt, with_console lines w).
Proof.
  revert w. induction lines as [|line tl IH]; intros w; simpl.
  - now rewrite with_console_nil.
  - unfold bind. rewrite print_run, IH, with_console_app. reflexivity.
Qed.

(** The loop files every outcome as [filed] says and prints one line per
    future that raised. *)
Lemma collect_run (completion : list (dict string * result job_result)) :
  Forall named completion ->
  forall successful failed w,
    collect completion successful failed w
    = (Ok ((successful ++ successes completion)%list,
           (failed ++ failures completion)%list),
       with_console (exception_lines completion) w).
Proof.
  induction 1 as [|[config outcome] tl [name Hname] Htl IH];
    intros successful failed w.
  - simpl. unfold ret. now rewrite !app_nil_r, with_console_nil.
  - simpl in Hname. cbn [collect]. unfold bind at 1.
    unfold collect_one, subscript, bind, ret. rewrite Hname.
    unfold successes, failures, exception_lines, filed. cbn [flat_map fst snd].
    unfold dict_get_default at 1 2 3 4. rewrite ?Hname.
    destruct outcome as [r|ex].
    + destruct (String.eqb (status r) "completed"); cbn [fst snd];
        rewrite IH; unfold successes, failures, exception_lines, filed;
        cbn [app]; rewrite <- ?app_assoc; reflexivity.
    + rewrite print_run. cbn [fst snd]. rewrite IH, with_console_app.
      unfold successes, failures, exception_lines, filed.
      cbn [app]. rewrite <- ?app_assoc. unfold dict_get_default.
      rewrite Hname. reflexivity.
Qed.

(** The loop stops at the first configuration without [name]. *)
Lemma collect_raises (pre post : list (dict string * result job_result))
      (config : dict string) (outcome : result job_result) :
  Forall named pre ->
  dict_get "name" config = None ->
  forall successful failed w,
    collect (pre ++ (config, outcome) :: post) successful failed w
    = (Raise (mkexc "KeyError" "'name'"),
       with_console (exception_lines pre) w).
Proof.
  intros Hpre Hname.
  induction Hpre as [|[c o] tl [name Hn] Htl IH]; intros successful failed w.
  - simpl. unfold bind, collect_one, subscript, bind, raise. rewrite Hname.
    now rewrite with_console_nil.
  - simpl in Hn. cbn [app collect]. unfold bind at 1.
    unfold collect_one, subscript, bind, ret. rewrite Hn.
    destruct o as [r|ex].
    + destruct (String.eqb (status r) "completed"); cbn [fst snd];
        rewrite IH; reflexivity.
    + rewrite print_run. cbn [fst snd]. rewrite IH, with_console_app.
      unfold exception_lines. cbn [flat_map fst snd app].
      unfold dict_get_default. rewrite Hn. reflexivity.
Qed.
End MainFacts.

Lemma failures_nil (completion : list (dict string * result job_result)) :
  failures completion = [] <-> Forall returned_completed completion.
Proof.
  unfold failures. induction completion as [|[config outcome] tl IH]; simpl.
  - split; [constructor | reflexivity].
  - unfold filed at 1. cbn [fst snd]. destruct outcome as [r|ex].
    + destruct (String.eqb (status r) "completed") eqn:E; cbn [snd app].
      * rewrite IH. split.
        -- intros H. constructor; [|assumption].
           exists r. split; [reflexivity | now apply String.eqb_eq].
        -- intros H. now inversion H.
      * split; [discriminate|]. intros H.
        inversion H as [|x xs [r' [Hr Hs]] _]; subst. simpl in Hr.
        inversion Hr; subst. apply String.eqb_eq in Hs. congruence.
    + cbn [snd app]. split; [discriminate|]. intros H.
      inversion H as [|x xs [r' [Hr Hs]] _]; subst. discriminate.
Qed.

(** X20. The loop of [main] files every outcome exactly once: a returned
    result goes to the successful list when its status is [completed] and
    to the failed list otherwise, a future that raised becomes a [failed]
    entry carrying the text of its exception, and nothing else is in the
    lists. *)
Theorem every_outcome_is_filed_once
        (completion : list (dict string * result job_result)) (w : world) :
  Forall named completion ->
  exists successful failed w',
    collect completion [] [] w = (Ok (successful, failed), w')
    /\ (List.length successful + List.length failed
        = List.length completion)%nat
    /\ (forall r, In r successful <->
                  exists config, In (config, Ok r) completion /\
                                 status r = "completed")
    /\ (forall r, In r failed <->
                  (exists config, In (config, Ok r) completion /\
                                  status r <> "completed")
                  \/ (exists config ex name,
                         In (config, Raise ex) completion /\
                         dict_get "name" config = Some name /\
                         r = mkresult "failed"
                               (source_db_name config ++ "." ++ name)
                               None (Some (exc_str ex)))).
Proof.
  intros Hnamed. rewrite (@collect_run completion Hnamed). do 3 eexists.
  split; [reflexivity|]. simpl app. split; [|split].
  - clear. unfold successes, failures.
    induction completion as [|[config outcome] tl IH]; simpl; [reflexivity|].
    rewrite !length_app. unfold filed at 1 3. cbn [snd fst].
    destruct outcome as [r|ex];
      [destruct (String.eqb (status r) "completed")|]; simpl; lia.
  - intros r. unfold successes. rewrite in_flat_map. split.
    + intros [[config outcome] [Hin Hr]]. unfold filed in Hr. cbn [snd fst] in Hr.
      destruct outcome as [r'|ex]; [|destruct Hr].
      destruct (String.eqb (status r') "completed") eqn:E; [|destruct Hr].
      destruct Hr as [<-|[]]. exists config. split; [assumption|].
      now apply String.eqb_eq.
    + intros [config [Hin Hs]]. exists (config, Ok r). split; [assumption|].
      unfold filed. cbn [snd fst]. apply String.eqb_eq in Hs. rewrite Hs.
      now left.
  - intros r. unfold failures. rewrite in_flat_map. split.
    + intros [[config outcome] [Hin Hr]]. unfold filed in Hr. cbn [snd fst] in Hr.
      destruct outcome as [r'|ex].
      * destruct (String.eqb (status r') "completed") eqn:E; [destruct Hr|].
        destruct Hr as [<-|[]]. left. exists config. split; [assumption|].
        now apply String.eqb_neq.
      * destruct Hr as [<-|[]]. right.
        rewrite Forall_forall in Hnamed.
        destruct (Hnamed _ Hin) as [name Hname]. simpl in Hname.
        exists config, ex, name. split; [assumption|]. split; [assumption|].
        unfold source_db_name, dict_get_default. now rewrite Hname.
    + intros [[config [Hin Hs]] | [config [ex [name [Hin [Hname ->]]]]]].
      * exists (config, Ok r). split; [assumption|].
        unfold filed. cbn [snd fst]. apply String.eqb_neq in Hs. rewrite Hs.
        now left.
      * exists (config, Raise ex). split; [assumption|].
        unfold filed. cbn [snd fst]. left.
        unfold source_db_name, dict_get_default. now rewrite Hname.
Qed.

Lemma every_outcome_is_filed_once_witness :
  let mismatch := mkresult "completed" "test.dk1" (Some "count_mismatch") None in
  let broken := mkresult "failed" "test.dk4" None (Some "Dump failed.") in
  let completion := [(job_dk4, Ok broken); (job_source_only, Raise refused);
                     (job_dk1, Ok mismatch)] in
  Forall named completion /\
  exists w',
    collect completion [] [] empty_world
    = (Ok ([mismatch],
           [broken;
            mkresult "failed" "test1.dk1" None (Some "not authorized")]), w').
Proof.
  intros mismatch broken completion.
  assert (Hnamed : Forall named completion).
  { repeat constructor; eexists; reflexivity. }
  split; [exact Hnamed|].
  destruct (@every_outcome_is_filed_once completion empty_world Hnamed)
    as [successful [failed [w' [Hrun _]]]].
  exists w'. rewrite Hrun. vm_compute in Hrun. inversion Hrun. reflexivity.
Defined.

Section SummaryFacts.
Context {L : PyLib} {F : PyFormat}.

Lemma print_summary_run (successful failed : list job_result) (w : world) :
  print_summary successful failed w
  = (Ok tt, with_console (summary_lines successful failed) w).
Proof.
  unfold print_summary, bind. rewrite print_run, print_each_run.
  destruct failed as [|r tl].
  - rewrite print_run, !with_console_app. reflexivity.
  - rewrite print_run, print_each_run, !with_console_app. reflexivity.
Qed.

(** What [main] prints when every configuration has a [name]. *)
Lemma main_run (now_start now_end : datetime)
      (completion : list (dict string * result job_result)) (w : world) :
  Forall named completion ->
  main now_start now_end completion w
  = (Ok tt,
     with_console
       ([("Migration process started at " ++ strftime now_start)%string;
         "--- DEBUG MODE IS ENABLED ---"; str_mul "-" 50]
        ++ exception_lines completion
        ++ [str_mul "-" 50;
            ("Migration process finished at " ++ strftime now_end)%string;
            ("Total duration: "
             ++ format_2f (total_seconds now_end now_start)
             ++ " seconds")%string;
            (newline ++ "--- Migration Summary ---")%string]
        ++ summary_lines (successes completion) (failures completion))%list
       w).
Proof.
  intros Hnamed. unfold main, bind, when, DEBUG_MODE.
  rewrite !print_run, (@collect_run completion Hnamed). rewrite !print_run.
  cbn [fst snd app]. rewrite print_summary_run, !with_console_app.
  reflexivity.
Qed.

(** What [main] does when a configuration has no [name]. *)
Lemma main_raises (now_start now_end : datetime)
      (pre post : list (dict string * result job_result))
      (config : dict string) (outcome : result job_result) (w : world) :
  Forall named pre ->
  dict_get "name" config = None ->
  main now_start now_end (pre ++ (config, outcome) :: post) w
  = (Raise (mkexc "KeyError" "'name'"),
     with_console
       ([("Migration process started at " ++ strftime now_start)%string;
         "--- DEBUG MODE IS ENABLED ---"; str_mul "-" 50]
        ++ exception_lines pre)%list
       w).
Proof.
  intros Hpre Hname. unfold main, bind, when, DEBUG_MODE.
  rewrite !print_run, (@collect_raises pre post config outcome Hpre Hname).
  rewrite !with_console_app. reflexivity.
Qed.
End SummaryFacts.

Lemma last_app_nonempty (A : Type) (l l' : list A) (d : A) :
  l' <> [] -> last (l ++ l') d = last l' d.
Proof.
  intros Hne. induction l as [|x tl IH]; simpl; [reflexivity|].
  rewrite IH. destruct (tl ++ l')%list eqn:E; [|reflexivity].
  apply app_eq_nil in E. destruct E as [_ E]. contradiction.
Qed.

Lemma last_In (A : Type) (l : list A) (d : A) : l <> [] -> In (last l d) l.
Proof.
  induction l as [|x [|y tl] IH]; intros Hne; [contradiction | now left |].
  right. apply IH. discriminate.
Qed.

(** The last line of the summary tells whether the failed list is empty. *)
Lemma summary_verdict (successful failed : list job_result) :
  last (summary_lines successful failed) EmptyString
  = (newline ++ "All migrations completed successfully!")%string
  <-> failed = [].
Proof.
  unfold summary_lines. split.
  - intros Hlast. destruct failed as [|r tl]; [reflexivity|]. exfalso.
    change (?a :: ?l ++ ?m)%list with ((a :: l) ++ m)%list in Hlast.
    rewrite last_app_nonempty in Hlast by discriminate.
    assert (Hin : In (newline ++ "All migrations completed successfully!")%string
                     (map (fun r0 => ("  - " ++ collection r0)%string) (r :: tl))).
    { rewrite <- Hlast.
      change (last (?h :: map ?f (r :: tl)) EmptyString)
        with (last (map f (r :: tl)) EmptyString).
      apply last_In. discriminate. }
    apply in_map_iff in Hin. destruct Hin as [x [Hx _]]. discriminate Hx.
  - intros ->.
    change (?a :: ?l ++ ?m)%list with ((a :: l) ++ m)%list.
    apply last_last.
Qed.

(** X21. When every configuration has a [name], [main] returns normally
    and its report ends with "All migrations completed successfully!"
    exactly when every future returned a result whose status is
    [completed]; a count mismatch, which a job reports as [completed],
    does not keep the line away. *)
Theorem report_verdict
        (L : PyLib) (F : PyFormat) (now_start now_end : datetime)
        (completion : list (dict string * result job_result)) (w : world) :
  Forall named completion ->
  fst (main now_start now_end completion w) = Ok tt
  /\ (last (console (snd (main now_start now_end completion w))) EmptyString
      = newline ++ "All migrations completed successfully!"
      <-> Forall returned_completed completion).
Proof.
  intros Hnamed. rewrite (@main_run L F now_start now_end completion w Hnamed).
  split; [reflexivity|]. cbn [snd]. unfold with_console. cbn [console].
  rewrite <- failures_nil.
  rewrite <- (summary_verdict (successes completion) (failures completion)).
  rewrite !app_assoc. rewrite last_app_nonempty; [reflexivity|].
  unfold summary_lines. discriminate.
Qed.

Lemma report_verdict_witness :
  let mismatch := mkresult "completed" "test.dk1" (Some "count_mismatch") None in
  let completion := [(job_dk1, Ok mismatch)] in
  Forall named completion /\
  Forall returned_completed completion /\
  last (console (snd (main (L := py310) (F := py310_format) noon noon_and_5s
                        completion empty_world))) EmptyString
  = newline ++ "All migrations completed successfully!".
Proof.
  intros mismatch completion.
  assert (Hnamed : Forall named completion).
  { repeat constructor; eexists; reflexivity. }
  assert (Hall : Forall returned_completed completion).
  { repeat constructor. eexists. split; reflexivity. }
  split; [exact Hnamed|]. split; [exact Hall|].
  exact (proj2 (proj2 (@report_verdict py310 py310_format noon noon_and_5s
                         completion empty_world Hnamed)) Hall).
Defined.

(** X22. A configuration without [name] stops [main] at line 285: the
    [KeyError] leaves the loop, the outcomes that complete later are never
    filed, and no summary is printed. *)
Theorem nameless_job_stops_the_report
        (L : PyLib) (F : PyFormat) (now_start now_end : datetime)
        (pre post : list (dict string * result job_result))
        (config : dict string) (outcome : result job_result) (w : world) :
  Forall named pre ->
  dict_get "name" config = None ->
  ~ In (newline ++ "--- Migration Summary ---") (console w) ->
  fst (main now_start now_end (pre ++ (config, outcome) :: post) w)
  = Raise (mkexc "KeyError" "'name'")
  /\ ~ In (newline ++ "--- Migration Summary ---")
          (console (snd (main now_start now_end
                              (pre ++ (config, outcome) :: post) w))).
Proof.
  intros Hpre Hname Hclean.
  rewrite (@main_raises L F now_start now_end pre post config outcome w Hpre
                        Hname).
  split; [reflexivity|]. cbn [snd]. unfold with_console. cbn [console].
  intros Hin. apply in_app_or in Hin. destruct Hin as [Hin|Hin];
    [contradiction|].
  apply in_app_or in Hin. destruct Hin as [Hin|Hin].
  - simpl in Hin. destruct Hin as [H|[H|[H|[]]]]; discriminate H.
  - unfold exception_lines in Hin. apply in_flat_map in Hin.
    destruct Hin as [[c o] [_ Hin]]. cbn [snd fst] in Hin.
    destruct o as [r|ex]; [destruct Hin|].
    destruct Hin as [H|[]]. discriminate H.
Qed.

Lemma nameless_job_stops_the_report_witness :
  let completed := mkresult "completed" "test.dk4" (Some "success") None in
  Forall named [(job_dk4, Ok completed)] /\
  dict_get "name" job_nameless = None /\
  fst (main (L := py310) (F := py310_format) noon noon_and_5s
         ([(job_dk4, Ok completed)]
          ++ (job_nameless, Raise (mkexc "KeyError" "'name'"))
          :: [(job_dk1, Ok completed)]) empty_world)
  = Raise (mkexc "KeyError" "'name'").
Proof.
  intros completed.
  assert (Hnamed : Forall named [(job_dk4, Ok completed)]).
  { repeat constructor; eexists; reflexivity. }
  split; [exact Hnamed|]. split; [reflexivity|].
  refine (proj1 (@nameless_job_stops_the_report py310 py310_format noon
                   noon_and_5s [(job_dk4, Ok completed)]
                   [(job_dk1, Ok completed)] job_nameless
                   (Raise (mkexc "KeyError" "'name'")) empty_world
                   Hnamed eq_refl _)).
  intros [].
Defined.

(** With a [name] in its configuration, a job returns. *)
Lemma job_never_raises
      (L : PyLib) (e : env) (config : dict string) (name : string) (w : world) :
  dict_get "name" config = Some name ->
  exists r, fst (migrate_collection e config w) = Ok r.
Proof.
  intros Hname. destruct w as [au oc fr co sp cn].
  run. rewrite Hname. run. explore. all: eexists; reflexivity.
Qed.

(** X23. Job and loop together: the future of a job whose configuration
    has a [name] never takes the [except] branch of lines 292-294.  Its
    outcome is a returned result, filed by its status alone, and the loop
    prints nothing for it. *)
Theorem job_outcome_is_filed_by_status
        (L : PyLib) (e : env) (config : dict string) (name : string)
        (job_world w : world) :
  dict_get "name" config = Some name ->
  exists r,
    fst (migrate_collection e config job_world) = Ok r
    /\ collect [(config, fst (migrate_collection e config job_world))] [] [] w
       = (Ok (if String.eqb (status r) "completed"
              then ([r], []) else ([], [r])), w).
Proof.
  intros Hname.
  destruct (job_never_raises L e config job_world Hname) as [r Hr].
  exists r. split; [assumption|]. rewrite Hr.
  cbn [collect]. unfold bind, collect_one, subscript, bind, ret.
  rewrite Hname. destruct (String.eqb (status r) "completed"); reflexivity.
Qed.

Lemma job_outcome_is_filed_by_status_witness :
  dict_get "name" job_dk4 = Some "dk4" /\
  exists r,
    fst (migrate_collection (L := py310) source_count_fails job_dk4 empty_world)
    = Ok r
    /\ collect [(job_dk4, fst (migrate_collection (L := py310)
                               source_count_fails job_dk4 empty_world))]
               [] [] empty_world
       = (Ok (if String.eqb (status r) "completed"
              then ([r], []) else ([], [r])), empty_world).
Proof.
  split; [reflexivity|].
  exact (@job_outcome_is_filed_by_status py310 source_count_fails job_dk4
           "dk4" empty_world empty_world eq_refl).
Defined.
